(** * Portfolio backend: upload, listing, contact and diagnostics handlers

    A shallow embedding of [main.py] and [schemas.py].  Handlers are
    functions in a state-and-exception monad over a [World] that holds the
    process environment, the document store, the local file system and a
    log of the external calls performed so far. *)

From Stdlib Require Import ZArith Strings.String Strings.Ascii Strings.Byte List Lia.
From stdpp Require Import gmap strings list fin_maps.

Local Open Scope string_scope.

(** ** Python primitives used by the handlers

    A [str] is a [string]: one element per character. *)

Module Py.

(** [s[:n]] on a string. *)
Fixpoint str_take (n : nat) (s : string) : string :=
  match n, s with
  | S n', String c s' => String c (str_take n' s')
  | _, _ => ""
  end.

(** Truthiness of a [str]. *)
Definition truthy_str (s : string) : bool :=
  match s with "" => false | _ => true end.

(** Truthiness of an [Optional[str]]: [None] and [""] are falsy. *)
Definition truthy (o : option string) : bool :=
  match o with Some s => truthy_str s | None => false end.

(** [a or b] on [Optional[str]] operands. *)
Definition or_else (a b : option string) : option string :=
  if truthy a then a else b.

(** One decimal digit. *)
Definition digit (n : nat) : ascii := ascii_of_nat (48 + n mod 10).

Fixpoint str_nat_go (fuel n : nat) (acc : string) : string :=
  match fuel with
  | O => acc
  | S fuel' =>
      let acc' := String (digit n) acc in
      if (n <? 10)%nat then acc' else str_nat_go fuel' (n / 10) acc'
  end.

(** [str(n)] for a non-negative [int]. *)
Definition str_nat (n : nat) : string := str_nat_go (S n) n "".

(** [str(z)] for an [int]. *)
Definition str_int (z : Z) : string :=
  if (z <? 0)%Z then String "-" (str_nat (Z.to_nat (- z)))
  else str_nat (Z.to_nat z).

Fixpoint zeros (n : nat) : string :=
  match n with O => "" | S n' => String "0" (zeros n') end.

(** ["%0<width>d" % n]: left-padded with zeros, never truncated. *)
Definition zfill (width n : nat) : string :=
  let s := str_nat n in zeros (width - String.length s) ++ s.

(** [str.rfind(c)] as an optional index. *)
Fixpoint rfind (c : ascii) (s : string) : option nat :=
  match s with
  | "" => None
  | String a s' =>
      match rfind c s' with
      | Some i => Some (S i)
      | None => if Ascii.eqb a c then Some 0 else None
      end
  end.

(** [s[n:]]. *)
Fixpoint str_drop (n : nat) (s : string) : string :=
  match n, s with
  | S n', String _ s' => str_drop n' s'
  | _, _ => s
  end.

(** The loop of [genericpath._splitext] that skips leading dots: is there a
    character other than the dot in [s[from:to]]? *)
Fixpoint has_non_dot (s : string) (from to : nat) : bool :=
  match s with
  | "" => false
  | String a s' =>
      match to with
      | O => false
      | S to' =>
          match from with
          | O => if Ascii.eqb a "." then has_non_dot s' 0 to' else true
          | S from' => has_non_dot s' from' to'
          end
      end
  end.

(** [os.path.splitext] (posixpath: separator "/", no alternative
    separator, extension separator "."). *)
Definition splitext (p : string) : string * string :=
  let filenameIndex := match rfind "/" p with Some i => S i | None => 0 end in
  match rfind "." p with
  | Some dotIndex =>
      if (filenameIndex <=? dotIndex)%nat && has_non_dot p filenameIndex dotIndex
      then (str_take dotIndex p, str_drop dotIndex p)
      else (p, "")
  | None => (p, "")
  end.

(** [str.startswith] / [str.endswith]. *)
Fixpoint startswith (pre s : string) : bool :=
  match pre, s with
  | "", _ => true
  | String a pre', String b s' => Ascii.eqb a b && startswith pre' s'
  | _, _ => false
  end.

Fixpoint endswith_slash (s : string) : bool :=
  match s with
  | "" => false
  | String a "" => Ascii.eqb a "/"
  | String _ s' => endswith_slash s'
  end.

(** [os.path.join(a, b)] (posixpath, two components). *)
Definition path_join (a b : string) : string :=
  if startswith "/" b then b
  else if negb (truthy_str a) || endswith_slash a then a ++ b
  else a ++ "/" ++ b.

(** A naive [datetime]. *)
Record datetime := {
  year : nat; month : nat; day : nat;
  hour : nat; minute : nat; second : nat; microsecond : nat }.

(** [t.strftime("%Y%m%d%H%M%S%f")]. *)
Definition strftime_compact (t : datetime) : string :=
  zfill 4 (year t) ++ zfill 2 (month t) ++ zfill 2 (day t) ++
  zfill 2 (hour t) ++ zfill 2 (minute t) ++ zfill 2 (second t) ++
  zfill 6 (microsecond t).

(** [t.isoformat(sep)]: the fraction is printed only when it is not zero. *)
Definition isoformat_sep (sep : string) (t : datetime) : string :=
  zfill 4 (year t) ++ "-" ++ zfill 2 (month t) ++ "-" ++ zfill 2 (day t) ++
  sep ++
  zfill 2 (hour t) ++ ":" ++ zfill 2 (minute t) ++ ":" ++ zfill 2 (second t) ++
  (if (microsecond t =? 0)%nat then "" else "." ++ zfill 6 (microsecond t)).

Definition isoformat : datetime -> string := isoformat_sep "T".

(** Exceptions: plain ones carry their text, [HTTPException] its fields. *)
Inductive exn :=
| Exception (msg : string)
| HTTPException (status_code : nat) (detail : string).

(** [str(e)]. *)
Definition str_exn (e : exn) : string :=
  match e with
  | Exception msg => msg
  | HTTPException c d => str_nat c ++ ": " ++ d
  end.

End Py.

(** ** Values, documents and the world outside the handlers *)

(** What a raw record of the document store may hold in a field. *)
Inductive value :=
| VNone
| VStr (s : string)
| VInt (z : Z)
| VOid (n : nat)
| VDatetime (t : Py.datetime).

#[global] Instance datetime_eq_dec : EqDecision Py.datetime.
Proof. solve_decision. Defined.

#[global] Instance value_eq_dec : EqDecision value.
Proof. solve_decision. Defined.

(** A Python [dict] with string keys. *)
Abbreviation document := (gmap string value).

(** [str(ObjectId)]: the string form of a store identifier. *)
Definition str_oid (n : nat) : string := Py.str_nat n.

(** [str(v)]. *)
Definition py_str (v : value) : string :=
  match v with
  | VNone => "None"
  | VStr s => s
  | VInt z => Py.str_int z
  | VOid n => str_oid n
  | VDatetime t => Py.isoformat_sep " " t
  end.

(** Truthiness of a value. *)
Definition truthy_value (v : value) : bool :=
  match v with
  | VNone => false
  | VStr s => Py.truthy_str s
  | VInt z => negb (z =? 0)%Z
  | VOid _ => true
  | VDatetime _ => true
  end.

(** [d.get(k)] and [d.get(k, default)]. *)
Definition dict_get (d : document) (k : string) : value := default VNone (d !! k).
Definition dict_get_default (d : document) (k : string) (dflt : value) : value :=
  default dflt (d !! k).

Definition opt_str (o : option string) : value :=
  match o with Some s => VStr s | None => VNone end.
Definition opt_int (o : option Z) : value :=
  match o with Some z => VInt z | None => VNone end.

(** The e-mail composed by the contact handler. *)
Record mail := {
  mail_from : string; mail_to : string; mail_subject : string; mail_body : string }.

(** External calls, in the order they are attempted. *)
Inductive event :=
| EvInsert (kind : string) (doc : document)
| EvFind (kind : string) (flt : document) (limit : Z)
| EvListCollectionNames
| EvWrite (path : string) (contents : list byte)
| EvRemove (path : string)
| EvSendmail (user password : string) (m : mail).

(** The state the handlers run against.  [db] tells whether the
    process-wide handle of the same name is not [None].  [faults] and
    [clock] are the part of the environment the program does not control:
    whether the external call attempted after [n] earlier ones fails (and
    with which text), and what [datetime.utcnow()] reads at that point. *)
Record World := {
  os_environ : gmap string string;
  os_cwd : string;
  db : bool;
  db_collections : gmap string (list document);
  db_next_oid : nat;
  fs_files : gmap string (list byte);
  trace : list event;
  faults : nat -> option string;
  clock : nat -> Py.datetime }.

Definition with_trace (t : list event) (w : World) : World :=
  {| os_environ := os_environ w; os_cwd := os_cwd w; db := db w;
     db_collections := db_collections w; db_next_oid := db_next_oid w;
     fs_files := fs_files w; trace := t; faults := faults w; clock := clock w |}.

Definition with_files (f : gmap string (list byte)) (w : World) : World :=
  {| os_environ := os_environ w; os_cwd := os_cwd w; db := db w;
     db_collections := db_collections w; db_next_oid := db_next_oid w;
     fs_files := f; trace := trace w; faults := faults w; clock := clock w |}.

Definition with_store (c : gmap string (list document)) (n : nat) (w : World) : World :=
  {| os_environ := os_environ w; os_cwd := os_cwd w; db := db w;
     db_collections := c; db_next_oid := n;
     fs_files := fs_files w; trace := trace w; faults := faults w; clock := clock w |}.

(** ** The state-and-exception monad *)

Inductive result (A : Type) :=
| Ok (a : A)
| Raise (e : Py.exn).
Arguments Ok {A} a.
Arguments Raise {A} e.

Definition M (A : Type) : Type := World -> result A * World.

Definition ret {A} (a : A) : M A := fun w => (Ok a, w).

Definition bind {A B} (c : M A) (k : A -> M B) : M B :=
  fun w => match c w with
           | (Ok a, w') => k a w'
           | (Raise e, w') => (Raise e, w')
           end.

Definition raise {A} (e : Py.exn) : M A := fun w => (Raise e, w).

(** [try: c / except Exception as e: h e].  The state reached when the
    exception was raised is kept. *)
Definition try_except {A} (c : M A) (h : Py.exn -> M A) : M A :=
  fun w => match c w with
           | (Ok a, w') => (Ok a, w')
           | (Raise e, w') => h e w'
           end.

(** Lifting of a pure, possibly failing construction. *)
Definition lift {A} (r : result A) : M A := fun w => (r, w).

Notation "x <~ c ;; k" := (bind c (fun x => k))
  (at level 100, c at next level, right associativity).
Notation "c ;;; k" := (bind c (fun _ => k))
  (at level 100, right associativity).

(** One external call: it is logged, then succeeds or raises as the
    environment decides. *)
Definition external (ev : event) : M unit :=
  fun w =>
    let w' := with_trace (trace w ++ [ev]) w in
    match faults w (length (trace w)) with
    | Some msg => (Raise (Py.Exception msg), w')
    | None => (Ok tt, w')
    end.

(** [os.getenv(k)]. *)
Definition getenv (k : string) : M (option string) :=
  fun w => (Ok (os_environ w !! k), w).

(** [datetime.utcnow()]. *)
Definition utcnow : M Py.datetime :=
  fun w => (Ok (clock w (length (trace w))), w).

(** [with open(path, "wb") as f: f.write(contents)]. *)
Definition write_file (path : string) (contents : list byte) : M unit :=
  external (EvWrite path contents) ;;;
  fun w => (Ok tt, with_files (<[path := contents]> (fs_files w)) w).

(** [os.remove(path)]. *)
Definition os_remove (path : string) : M unit :=
  external (EvRemove path) ;;;
  fun w => match fs_files w !! path with
           | Some _ => (Ok tt, with_files (delete path (fs_files w)) w)
           | None =>
               (Raise (Py.Exception ("[Errno 2] No such file or directory: " ++ path)), w)
           end.

(** [db.list_collection_names()]. *)
Definition list_collection_names : M (list string) :=
  external EvListCollectionNames ;;;
  fun w => (Ok ((map_to_list (db_collections w)).*1), w).

(** An SMTP-over-TLS session: connect, log in, send, quit. *)
Definition smtp_send (user password : string) (m : mail) : M unit :=
  external (EvSendmail user password m).

(** ** Validation library

    The two pieces of pydantic whose code is not part of the program:
    [EmailStr] (the address in normalised form, or a failure) and the
    coercion of a [str] to an [int] field. *)
Class Pydantic := {
  validate_email : string -> option string;
  int_of_str : string -> option Z }.

(** [pydantic.ValidationError], by the model it was raised for. *)
Definition ValidationError (model : string) : Py.exn :=
  Py.Exception ("1 validation error for " ++ model).

(** ** schemas.py *)

Module Video.

Record t := mk {
  title : string;
  description : option string;
  filename : string;
  url : string;
  mime_type : option string;
  size_bytes : option Z }.

(** [Video(...)]: every field is given with its declared type; the only
    constraint left to check is [ge=0] on [size_bytes]. *)
Definition new (title : string) (description : option string)
    (filename url : string) (mime_type : option string)
    (size_bytes : option Z) : result t :=
  match size_bytes with
  | Some z =>
      if (0 <=? z)%Z
      then Ok (mk title description filename url mime_type size_bytes)
      else Raise (ValidationError "Video")
  | None => Ok (mk title description filename url mime_type size_bytes)
  end.

Definition model_dump (v : t) : document :=
  <["title" := VStr (title v)]>
  (<["description" := opt_str (description v)]>
  (<["filename" := VStr (filename v)]>
  (<["url" := VStr (url v)]>
  (<["mime_type" := opt_str (mime_type v)]>
  (<["size_bytes" := opt_int (size_bytes v)]> ∅))))).

End Video.

Module ContactMessage.

Record t := mk { name : string; email : string; message : string }.

(** [ContactMessage(name=.., email=.., message=..)]: [EmailStr] on
    [email], [min_length=1] and [max_length=5000] on [message]. *)
Definition new `{Pydantic} (name email message : string) : result t :=
  match validate_email email with
  | Some e =>
      if (1 <=? String.length message)%nat && (String.length message <=? 5000)%nat
      then Ok (mk name e message)
      else Raise (ValidationError "ContactMessage")
  | None => Raise (ValidationError "ContactMessage")
  end.

Definition model_dump (c : t) : document :=
  <["name" := VStr (name c)]>
  (<["email" := VStr (email c)]>
  (<["message" := VStr (message c)]> ∅)).

End ContactMessage.

(** ** The document store adapter *)

Module Database.

(** Text of the exception raised when the handle is missing. *)
Definition unavailable : string := "Database not available".

Definition collection (kind : string) (w : World) : list document :=
  default [] (db_collections w !! kind).

(** Modelled from the spec: [database.create_document], whose module is
    not among the sources.  It inserts the record into the collection
    named by [kind] and returns a generated unique identifier; it fails
    when the store is unreachable or rejects the write, and fails fast
    when the handle [db] is missing.  The record is stored as given, under
    the identifier the store assigns. *)
Definition create_document (kind : string) (doc : document) : M string :=
  fun w =>
    if db w then
      (external (EvInsert kind doc) ;;;
       fun w =>
         let oid := db_next_oid w in
         (Ok (str_oid oid),
          with_store
            (<[kind := (collection kind w ++ [<["_id" := VOid oid]> doc])%list]>
               (db_collections w))
            (S oid) w)) w
    else (Raise (Py.Exception unavailable), w).

(** Modelled from the spec: [database.get_documents], whose module is not
    among the sources.  It returns up to [limit] records of the collection
    that match [flt] (the empty filter matches all), in the order of the
    store, and fails when the store is unreachable or the handle is
    missing. *)
Definition get_documents (kind : string) (flt : document) (limit : Z)
    : M (list document) :=
  fun w =>
    if db w then
      (external (EvFind kind flt limit) ;;;
       fun w =>
         (Ok (take (Z.to_nat limit)
                (filter (fun d : document => flt ⊆ d) (collection kind w))),
          w)) w
    else (Raise (Py.Exception unavailable), w).

End Database.

(** ** main.py *)

Module VideoOut.

Record t := mk {
  id : string;
  title : string;
  description : option string;
  url : string;
  mime_type : option string;
  size_bytes : option Z;
  created_at : option string }.

(** Field validators: [str], [Optional[str]] and [Optional[int]]. *)
Definition as_str (v : value) : option string :=
  match v with VStr s => Some s | _ => None end.

Definition as_opt_str (v : value) : option (option string) :=
  match v with
  | VNone => Some None
  | VStr s => Some (Some s)
  | _ => None
  end.

Definition as_opt_int `{Pydantic} (v : value) : option (option Z) :=
  match v with
  | VNone => Some None
  | VInt z => Some (Some z)
  | VStr s => match int_of_str s with Some z => Some (Some z) | None => None end
  | _ => None
  end.

(** [VideoOut(id=.., title=.., ...)] on arbitrary argument values. *)
Definition new `{Pydantic} (id title description url mime_type size_bytes
    created_at : value) : result t :=
  match as_str id, as_str title, as_opt_str description, as_str url,
        as_opt_str mime_type, as_opt_int size_bytes, as_opt_str created_at with
  | Some i, Some t, Some d, Some u, Some m, Some s, Some c =>
      Ok (mk i t d u m s c)
  | _, _, _, _, _, _, _ => Raise (ValidationError "VideoOut")
  end.

End VideoOut.

Module UploadFile.
(** What the handler uses of the uploaded part: the declared file name,
    the declared content type and the bytes [await file.read()] yields. *)
Record t := mk {
  filename : string;
  content_type : option string;
  read : list byte }.
End UploadFile.

Module ContactPayload.

Record t := mk { name : string; email : string; message : string }.

(** [ContactPayload(...)]: [EmailStr] on [email]; [name] and [message] are
    plain [str] fields. *)
Definition new `{Pydantic} (name email message : string) : result t :=
  match validate_email email with
  | Some e => Ok (mk name e message)
  | None => Raise (ValidationError "ContactPayload")
  end.

End ContactPayload.

Module Diagnostics.
(** The [response] dictionary of [test_database]. *)
Record t := mk {
  backend : string;
  database : string;
  database_url : option string;
  database_name : option string;
  connection_status : string;
  collections : list string }.

Definition set_database (s : string) (r : t) : t :=
  mk (backend r) s (database_url r) (database_name r) (connection_status r)
     (collections r).
Definition set_collections (c : list string) (r : t) : t :=
  mk (backend r) (database r) (database_url r) (database_name r)
     (connection_status r) c.
Definition set_database_url (s : string) (r : t) : t :=
  mk (backend r) (database r) (Some s) (database_name r) (connection_status r)
     (collections r).
Definition set_database_name (s : string) (r : t) : t :=
  mk (backend r) (database r) (database_url r) (Some s) (connection_status r)
     (collections r).
End Diagnostics.

Module Contact.
(** The JSON object the contact handler answers with; [warning = None]
    when the key is absent, [saved_id = None] when it is [null]. *)
Record body := mk {
  status : string;
  warning : option string;
  saved_id : option string }.

(** A plain [dict] (sent with status 200) or an explicit [JSONResponse]. *)
Inductive reply :=
| Dict (b : body)
| JSONResponse (status_code : nat) (content : body).
End Contact.

Module Main.

Import Py.

(** [UPLOAD_DIR = os.path.join(os.getcwd(), "uploads")]. *)
Definition UPLOAD_DIR (w : World) : string := path_join (os_cwd w) "uploads".

Definition upload_dir : M string := fun w => (Ok (UPLOAD_DIR w), w).

(** [db is not None]. *)
Definition db_is_not_None : M bool := fun w => (Ok (db w), w).

Definition read_root : M string := ret "Portfolio API running".

Definition set_or_not (o : option string) : string :=
  if truthy o then "✅ Set" else "❌ Not Set".

(** [GET /test].  Nothing in the body of the outer [try] can raise once
    the inner [try] has caught the failure of the store call, so its
    handler starts from the initial dictionary. *)
Definition test_database : M Diagnostics.t :=
  let response :=
    Diagnostics.mk "✅ Running" "❌ Not Available" None None "Not Connected" [] in
  response <~
    try_except
      (present <~ db_is_not_None ;;
       if present : bool then
         let response := Diagnostics.set_database "✅ Available" response in
         try_except
           (collections <~ list_collection_names ;;
            let response :=
              Diagnostics.set_collections (take 10 collections) response in
            ret (Diagnostics.set_database "✅ Connected & Working" response))
           (fun e =>
              ret (Diagnostics.set_database
                     ("⚠️  Connected but Error: " ++ str_take 50 (str_exn e))
                     response))
       else
         ret (Diagnostics.set_database "⚠️  Available but not initialized" response))
      (fun e =>
         ret (Diagnostics.set_database
                ("❌ Error: " ++ str_take 50 (str_exn e)) response)) ;;
  database_url <~ getenv "DATABASE_URL" ;;
  let response := Diagnostics.set_database_url (set_or_not database_url) response in
  database_name <~ getenv "DATABASE_NAME" ;;
  let response := Diagnostics.set_database_name (set_or_not database_name) response in
  ret response.

(** [POST /api/videos]. *)
Definition upload_video `{Pydantic} (file : UploadFile.t) (title : string)
    (description : option string) : M VideoOut.t :=
  let file_ext := snd (splitext (UploadFile.filename file)) in
  now <~ utcnow ;;
  let ts := strftime_compact now in
  let safe_name := "video_" ++ ts ++ file_ext in
  dir <~ upload_dir ;;
  let file_path := path_join dir safe_name in
  let contents := UploadFile.read file in
  write_file file_path contents ;;;
  let public_url := "/uploads/" ++ safe_name in
  video_doc <~ lift (Video.new title description safe_name public_url
                       (UploadFile.content_type file)
                       (Some (Z.of_nat (length contents)))) ;;
  inserted_id <~
    try_except
      (Database.create_document "video" (Video.model_dump video_doc))
      (fun e =>
         try_except (os_remove file_path) (fun _ => ret tt) ;;;
         raise (HTTPException 500 (str_exn e))) ;;
  now' <~ utcnow ;;
  lift (VideoOut.new (VStr inserted_id)
          (VStr (Video.title video_doc))
          (opt_str (Video.description video_doc))
          (VStr public_url)
          (opt_str (Video.mime_type video_doc))
          (opt_int (Video.size_bytes video_doc))
          (VStr (isoformat now'))).

(** The record-to-response mapping in the loop of [list_videos]. *)
Definition video_out_of `{Pydantic} (d : document) : result VideoOut.t :=
  VideoOut.new
    (VStr (py_str (dict_get d "_id")))
    (dict_get_default d "title" (VStr "Untitled"))
    (dict_get d "description")
    (dict_get_default d "url" (VStr ""))
    (dict_get d "mime_type")
    (dict_get d "size_bytes")
    (if truthy_value (dict_get d "created_at")
     then VStr (py_str (dict_get d "created_at")) else VNone).

(** [for d in docs: out.append(VideoOut(...))]. *)
Fixpoint for_each_doc `{Pydantic} (docs : list document) (out : list VideoOut.t)
    : result (list VideoOut.t) :=
  match docs with
  | [] => Ok out
  | d :: docs' =>
      match video_out_of d with
      | Ok v => for_each_doc docs' (out ++ [v])%list
      | Raise e => Raise e
      end
  end.

(** [GET /api/videos]. *)
Definition list_videos `{Pydantic} (limit : Z) : M (list VideoOut.t) :=
  docs <~
    try_except (Database.get_documents "video" ∅ limit)
      (fun e => raise (HTTPException 500 (str_exn e))) ;;
  lift (for_each_doc docs []).

(** The e-mail built from the payload. *)
Definition compose (gmail_user to_email : string) (payload : ContactPayload.t)
    : mail :=
  {| mail_from := gmail_user;
     mail_to := to_email;
     mail_subject := "New Contact from " ++ ContactPayload.name payload;
     mail_body :=
       "Name: " ++ ContactPayload.name payload ++
       String "010" ("Email: " ++ ContactPayload.email payload ++
       String "010" (String "010" ("Message:" ++
       String "010" (ContactPayload.message payload)))) |}.

(** The tail of [send_contact], reached when SMTP is not configured. *)
Definition store_only (saved_id : option string) : M Contact.reply :=
  if truthy saved_id
  then ret (Contact.Dict (Contact.mk "saved_only" None saved_id))
  else raise (HTTPException 500 "Email not configured and database unavailable.").

(** The first [try] block of [send_contact]: [saved_id] after it. *)
Definition save_message `{Pydantic} (payload : ContactPayload.t)
    : M (option string) :=
  try_except
    (doc <~ lift (ContactMessage.new (ContactPayload.name payload)
                    (ContactPayload.email payload)
                    (ContactPayload.message payload)) ;;
     inserted <~ Database.create_document "contactmessage"
                   (ContactMessage.model_dump doc) ;;
     ret (Some inserted))
    (fun _ => ret None).

(** [POST /api/contact]. *)
Definition send_contact `{Pydantic} (payload : ContactPayload.t)
    : M Contact.reply :=
  gmail_user <~ getenv "GMAIL_USER" ;;
  gmail_app_password <~ getenv "GMAIL_APP_PASSWORD" ;;
  contact_to <~ getenv "CONTACT_TO_EMAIL" ;;
  let to_email := or_else contact_to gmail_user in
  saved_id <~ save_message payload ;;
  match gmail_user, gmail_app_password, to_email with
  | Some user, Some password, Some to =>
      if truthy_str user && truthy_str password && truthy_str to then
        let msg := compose user to payload in
        try_except
          (smtp_send user password msg ;;;
           ret (Contact.Dict (Contact.mk "sent" None saved_id)))
          (fun e =>
             ret (Contact.JSONResponse 202
                    (Contact.mk "saved_only" (Some (str_exn e)) saved_id)))
      else store_only saved_id
  | _, _, _ => store_only saved_id
  end.

(** [if gmail_user and gmail_app_password and to_email], read off the
    environment. *)
Definition smtp_configured (w : World) : bool :=
  let gmail_user := os_environ w !! "GMAIL_USER" in
  truthy gmail_user && truthy (os_environ w !! "GMAIL_APP_PASSWORD") &&
  truthy (or_else (os_environ w !! "CONTACT_TO_EMAIL") gmail_user).

(** [app.mount("/uploads", StaticFiles(directory=UPLOAD_DIR))]: the file
    a public url is served from. *)
Definition static_path (w : World) (url : string) : option string :=
  if startswith "/uploads/" url
  then Some (path_join (UPLOAD_DIR w) (str_drop 9 url))
  else None.

End Main.

(** ** The routes, as the framework serves them *)

Module App.

(** An HTTP answer: a JSON body with its status code, or an error with
    its detail. *)
Inductive http (A : Type) :=
| Response (status_code : nat) (body : A)
| Error (status_code : nat) (detail : string).
Arguments Response {A} status_code body.
Arguments Error {A} status_code detail.

(** What the framework makes of a raised exception: an [HTTPException]
    becomes its own status and detail, anything else a plain 500. *)
Definition error_of {A} (e : Py.exn) : http A :=
  match e with
  | Py.HTTPException c d => Error c d
  | Py.Exception _ => Error 500 "Internal Server Error"
  end.

(** Request validation failed: the handler is not called. *)
Definition unprocessable {A} : http A := Error 422 "Unprocessable Entity".

Definition serve {A} (c : M A) : World -> http A * World :=
  fun w => match c w with
           | (Ok a, w') => (Response 200 a, w')
           | (Raise e, w') => (error_of e, w')
           end.

Definition serve_reply (c : M Contact.reply) : World -> http Contact.body * World :=
  fun w => match c w with
           | (Ok (Contact.Dict b), w') => (Response 200 b, w')
           | (Ok (Contact.JSONResponse code b), w') => (Response code b, w')
           | (Raise e, w') => (error_of e, w')
           end.

(** A parameter declared with [Form(...)] or [Form(None)], as FastAPI
    reads it from the form data: an empty string sent by the client counts
    as no value at all, so a required field is reported missing and an
    optional one takes its default. *)
Definition form_value (v : option string) : option string :=
  match v with
  | Some "" => None
  | _ => v
  end.

Definition get_root : World -> http string * World := serve Main.read_root.

Definition get_test : World -> http Diagnostics.t * World :=
  serve Main.test_database.

(** [POST /api/videos] with [file = File(...)], [title = Form(...)] and
    [description = Form(None)]. *)
Definition post_videos `{Pydantic} (file : option UploadFile.t)
    (title description : option string) : World -> http VideoOut.t * World :=
  match file, form_value title with
  | Some f, Some t => serve (Main.upload_video f t (form_value description))
  | _, _ => fun w => (unprocessable, w)
  end.

(** [GET /api/videos?limit=N], [limit: int = 50]. *)
Definition get_videos `{Pydantic} (limit : option Z)
    : World -> http (list VideoOut.t) * World :=
  serve (Main.list_videos (default 50%Z limit)).

(** [POST /api/contact] with a JSON body bound to [ContactPayload]; a
    field that is missing or not a string is [None]. *)
Definition post_contact `{Pydantic} (name email message : option string)
    : World -> http Contact.body * World :=
  match name, email, message with
  | Some n, Some e, Some m =>
      match ContactPayload.new n e m with
      | Ok payload => serve_reply (Main.send_contact payload)
      | Raise _ => fun w => (unprocessable, w)
      end
  | _, _, _ => fun w => (unprocessable, w)
  end.

Inductive request :=
| GetRoot
| GetTest
| PostVideos (file : option UploadFile.t) (title description : option string)
| GetVideos (limit : option Z)
| PostContact (name email message : option string).

Inductive response :=
| Root (r : http string)
| Test (r : http Diagnostics.t)
| Uploaded (r : http VideoOut.t)
| Listed (r : http (list VideoOut.t))
| Contacted (r : http Contact.body).

Definition handle `{Pydantic} (rq : request) (w : World) : response * World :=
  match rq with
  | GetRoot => let (r, w') := get_root w in (Root r, w')
  | GetTest => let (r, w') := get_test w in (Test r, w')
  | PostVideos f t d => let (r, w') := post_videos f t d w in (Uploaded r, w')
  | GetVideos l => let (r, w') := get_videos l w in (Listed r, w')
  | PostContact n e m => let (r, w') := post_contact n e m w in (Contacted r, w')
  end.

(** Requests served one after the other. *)
Fixpoint run `{Pydantic} (rqs : list request) (w : World) : list response * World :=
  match rqs with
  | [] => ([], w)
  | rq :: rqs' =>
      let (r, w') := handle rq w in
      let (rs, w'') := run rqs' w' in
      (r :: rs, w'')
  end.

End App.

(** ** Sample environment used to run the handlers on concrete inputs *)

Module Sample.

(** A stand-in for the validation library: an address is accepted when it
    contains an at sign and is kept as it is; a string of digits is read
    as a number only when it is ["0"]. *)
Definition has_at (s : string) : bool :=
  match Py.rfind "@" s with Some _ => true | None => false end.

Definition lib : Pydantic :=
  {| validate_email := fun s => if has_at s then Some s else None;
     int_of_str := fun s => if String.eqb s "0" then Some 0%Z else None |}.

Definition epoch : Py.datetime :=
  {| Py.year := 2024; Py.month := 1; Py.day := 2; Py.hour := 3;
     Py.minute := 4; Py.second := 5; Py.microsecond := 678 |}.

(** A fresh process: empty store, empty upload directory, nothing logged. *)
Definition world (env : gmap string string) (has_db : bool)
    (faults : nat -> option string) : World :=
  {| os_environ := env; os_cwd := "/srv/app"; db := has_db;
     db_collections := ∅; db_next_oid := 1; fs_files := ∅; trace := [];
     faults := faults; clock := fun _ => epoch |}.

Definition no_fault : nat -> option string := fun _ => None.

(** The [n]-th external call fails with text [msg]. *)
Definition fail_at (n : nat) (msg : string) : nat -> option string :=
  fun i => if (i =? n)%nat then Some msg else None.

Definition smtp_env : gmap string string :=
  <["GMAIL_USER" := "me@example.org"]> (<["GMAIL_APP_PASSWORD" := "secret"]> ∅).

Definition clip : UploadFile.t :=
  UploadFile.mk "holiday.mp4" (Some "video/mp4") [Byte.x01; Byte.x02; Byte.x03].

Definition ann : ContactPayload.t :=
  ContactPayload.mk "Ann" "ann@example.org" "hello".

(** A store holding one video record whose title is a number. *)
Definition bad_record : document := <["title" := VInt 3]> ∅.

Definition broken_store : World :=
  with_store (<["video" := [bad_record]]> ∅) 2 (world ∅ true no_fault).

(** Where [clip] lands when uploaded at [epoch]. *)
Definition video_path : string :=
  "/srv/app/uploads/video_20240102030405000678.mp4".

End Sample.

(** ** Vocabulary of the statements *)

(** The world after one logged external call. *)
Definition logged (ev : event) (w : World) : World :=
  with_trace (trace w ++ [ev]) w.

(** The world after a record was inserted under a fresh identifier. *)
Definition inserted (kind : string) (doc : document) (w : World) : World :=
  let w1 := logged (EvInsert kind doc) w in
  with_store
    (<[kind := (Database.collection kind w1 ++
                  [<["_id" := VOid (db_next_oid w1)]> doc])%list]>
       (db_collections w1))
    (S (db_next_oid w1)) w1.

(** The name [upload_video] generates in world [w], the path it writes to,
    the world after the write and the record it builds. *)
Definition upload_name (f : UploadFile.t) (w : World) : string :=
  "video_" ++ Py.strftime_compact (clock w (length (trace w))) ++
  snd (Py.splitext (UploadFile.filename f)).

Definition upload_path (f : UploadFile.t) (w : World) : string :=
  Py.path_join (Main.UPLOAD_DIR w) (upload_name f w).

Definition written (f : UploadFile.t) (w : World) : World :=
  with_files (<[upload_path f w := UploadFile.read f]> (fs_files w))
    (logged (EvWrite (upload_path f w) (UploadFile.read f)) w).

Definition upload_record (f : UploadFile.t) (title : string)
    (description : option string) (w : World) : Video.t :=
  Video.mk title description (upload_name f w) ("/uploads/" ++ upload_name f w)
    (UploadFile.content_type f) (Some (Z.of_nat (length (UploadFile.read f)))).

(** The same world with other environment variables. *)
Definition with_environ (env : gmap string string) (w : World) : World :=
  {| os_environ := env; os_cwd := os_cwd w; db := db w;
     db_collections := db_collections w; db_next_oid := db_next_oid w;
     fs_files := fs_files w; trace := trace w; faults := faults w;
     clock := clock w |}.

(** The public shape of a raw record: the identifier in string form, the
    stored title or the placeholder, the stored url or the empty string,
    and the optional fields as stored or absent. *)
Definition public_shape `{Pydantic} (d : document) (v : VideoOut.t) : Prop :=
  VideoOut.id v = py_str (dict_get d "_id") /\
  match d !! "title" with
  | None => VideoOut.title v = "Untitled"
  | Some x => x = VStr (VideoOut.title v)
  end /\
  match d !! "description" with
  | None => VideoOut.description v = None
  | Some x => x = opt_str (VideoOut.description v)
  end /\
  match d !! "url" with
  | None => VideoOut.url v = ""
  | Some x => x = VStr (VideoOut.url v)
  end /\
  match d !! "mime_type" with
  | None => VideoOut.mime_type v = None
  | Some x => x = opt_str (VideoOut.mime_type v)
  end /\
  match d !! "size_bytes" with
  | None => VideoOut.size_bytes v = None
  | Some x => VideoOut.as_opt_int x = Some (VideoOut.size_bytes v)
  end /\
  match d !! "created_at" with
  | None => VideoOut.created_at v = None
  | Some x =>
      VideoOut.created_at v = if truthy_value x then Some (py_str x) else None
  end.

(** A raw record whose fields, where present, have the types the response
    model declares. *)
Definition is_str (v : value) : bool :=
  match v with VStr _ => true | _ => false end.

Definition is_opt_str (v : value) : bool :=
  match v with VNone | VStr _ => true | _ => false end.

Definition is_opt_int `{Pydantic} (v : value) : bool :=
  match v with
  | VNone | VInt _ => true
  | VStr s => match int_of_str s with Some _ => true | None => false end
  | _ => false
  end.

Definition conforms `{Pydantic} (d : document) : bool :=
  is_str (dict_get_default d "title" (VStr "Untitled")) &&
  is_opt_str (dict_get d "description") &&
  is_str (dict_get_default d "url" (VStr "")) &&
  is_opt_str (dict_get d "mime_type") &&
  is_opt_int (dict_get d "size_bytes").

(** No video record of the store has a [created_at] key. *)
Definition no_created_at (w : World) : Prop :=
  Forall (fun d : document => d !! "created_at" = None)
    (Database.collection "video" w).

(** * Properties *)

(** ** Identifiers *)

Lemma str_nat_go_truthy fuel n acc :
  Py.truthy_str acc = true -> Py.truthy_str (Py.str_nat_go fuel n acc) = true.
Proof.
  revert n acc. induction fuel as [|fuel IH]; intros n acc Hacc; simpl; [exact Hacc|].
  destruct (n <? 10)%nat; [reflexivity|]. now apply IH.
Qed.

Lemma str_oid_truthy n : Py.truthy_str (str_oid n) = true.
Proof.
  unfold str_oid, Py.str_nat. simpl.
  destruct (n <? 10)%nat; [reflexivity|]. now apply str_nat_go_truthy.
Qed.

(** ** The contact handler *)

Section contact.
Context `{Pydantic}.
Import Main.

Lemma create_document_eq kind doc w :
  Database.create_document kind doc w =
    if db w then
      match faults w (length (trace w)) with
      | None => (Ok (str_oid (db_next_oid w)), inserted kind doc w)
      | Some msg => (Raise (Py.Exception msg), logged (EvInsert kind doc) w)
      end
    else (Raise (Py.Exception Database.unavailable), w).
Proof.
  unfold Database.create_document, bind, external.
  destruct (db w); [|reflexivity].
  destruct (faults w (length (trace w))); reflexivity.
Qed.

Lemma save_message_eq p w :
  save_message p w =
    match ContactMessage.new (ContactPayload.name p) (ContactPayload.email p)
            (ContactPayload.message p) with
    | Ok doc =>
        match Database.create_document "contactmessage"
                (ContactMessage.model_dump doc) w with
        | (Ok i, w1) => (Ok (Some i), w1)
        | (Raise _, w1) => (Ok None, w1)
        end
    | Raise _ => (Ok None, w)
    end.
Proof.
  unfold save_message, try_except, bind, lift, ret.
  destruct (ContactMessage.new _ _ _); [|reflexivity].
  destruct (Database.create_document _ _ w) as [[i|e] w1]; reflexivity.
Qed.

(** The first block never raises. *)
Lemma save_message_total p w :
  exists o w1, save_message p w = (Ok o, w1).
Proof.
  rewrite save_message_eq.
  destruct (ContactMessage.new _ _ _); [|eauto].
  destruct (Database.create_document _ _ w) as [[i|e] w1]; eauto.
Qed.

(** It leaves the environment variables alone. *)
Lemma save_message_environ p w r w1 :
  save_message p w = (r, w1) -> os_environ w1 = os_environ w.
Proof.
  rewrite save_message_eq.
  destruct (ContactMessage.new _ _ _); [|now intros [= _ <-]].
  rewrite create_document_eq.
  destruct (db w); [|now intros [= _ <-]].
  destruct (faults w (length (trace w))); now intros [= _ <-].
Qed.

(** An identifier it returns is a truthy string. *)
Lemma save_message_truthy p w i w1 :
  save_message p w = (Ok (Some i), w1) -> Py.truthy (Some i) = true.
Proof.
  rewrite save_message_eq.
  destruct (ContactMessage.new _ _ _); [|discriminate].
  rewrite create_document_eq.
  destruct (db w); [|discriminate].
  destruct (faults w (length (trace w))); [discriminate|].
  intros [= <- _]. apply str_oid_truthy.
Qed.

(** It returns an identifier exactly when the message passed the schema
    and the record was inserted. *)
Lemma save_message_some p w i w1 :
  save_message p w = (Ok (Some i), w1) ->
  exists doc,
    ContactMessage.new (ContactPayload.name p) (ContactPayload.email p)
      (ContactPayload.message p) = Ok doc /\
    w1 = inserted "contactmessage" (ContactMessage.model_dump doc) w /\
    i = str_oid (db_next_oid w).
Proof.
  rewrite save_message_eq.
  destruct (ContactMessage.new _ _ _) as [doc|]; [|discriminate].
  rewrite create_document_eq.
  destruct (db w); [|discriminate].
  destruct (faults w (length (trace w))); [discriminate|].
  intros [= <- <-]. now exists doc.
Qed.

(** When it returns no identifier, nothing was stored. *)
Lemma save_message_none p w w1 :
  save_message p w = (Ok None, w1) ->
  db_collections w1 = db_collections w /\ db_next_oid w1 = db_next_oid w.
Proof.
  rewrite save_message_eq.
  destruct (ContactMessage.new _ _ _) as [doc|]; [|now intros [= <-]].
  rewrite create_document_eq.
  destruct (db w); [|now intros [= <-]].
  destruct (faults w (length (trace w))); [now intros [= <-]|discriminate].
Qed.

(** The sender, credential and recipient of a configured process. *)
Lemma smtp_configured_inv w :
  smtp_configured w = true ->
  exists user password to,
    os_environ w !! "GMAIL_USER" = Some user /\
    os_environ w !! "GMAIL_APP_PASSWORD" = Some password /\
    Py.or_else (os_environ w !! "CONTACT_TO_EMAIL") (Some user) = Some to /\
    Py.truthy_str user = true /\ Py.truthy_str password = true /\
    Py.truthy_str to = true.
Proof.
  unfold smtp_configured.
  destruct (os_environ w !! "GMAIL_USER") as [user|]; [|discriminate].
  destruct (os_environ w !! "GMAIL_APP_PASSWORD") as [password|];
    [|simpl; rewrite andb_false_r; discriminate].
  destruct (Py.or_else (os_environ w !! "CONTACT_TO_EMAIL") (Some user))
    as [to|] eqn:Hto; [|simpl; rewrite andb_false_r; discriminate].
  simpl. intros Hc.
  apply andb_prop in Hc as [Hc Hto']. apply andb_prop in Hc as [Hu Hp].
  exists user, password, to. repeat split; assumption || reflexivity.
Qed.

(** [send_contact] with SMTP configured: one send, whose outcome picks
    the answer. *)
Lemma send_contact_configured p w sid w1 :
  smtp_configured w = true ->
  save_message p w = (Ok sid, w1) ->
  exists user password to,
    os_environ w !! "GMAIL_USER" = Some user /\
    os_environ w !! "GMAIL_APP_PASSWORD" = Some password /\
    Py.or_else (os_environ w !! "CONTACT_TO_EMAIL") (Some user) = Some to /\
    send_contact p w =
      let w2 := logged (EvSendmail user password (compose user to p)) w1 in
      match faults w1 (length (trace w1)) with
      | None => (Ok (Contact.Dict (Contact.mk "sent" None sid)), w2)
      | Some msg =>
          (Ok (Contact.JSONResponse 202
                 (Contact.mk "saved_only" (Some msg) sid)), w2)
      end.
Proof.
  intros Hc Hs.
  destruct (smtp_configured_inv w Hc)
    as (user & password & to & Hu & Hp & Hto & Tu & Tp & Tto).
  exists user, password, to. repeat split; try assumption.
  unfold send_contact, bind, getenv. rewrite Hu, Hp, Hto, Hs, Tu, Tp, Tto.
  simpl. unfold try_except, bind, smtp_send, external, ret, logged.
  destruct (faults w1 (length (trace w1))); reflexivity.
Qed.

(** [send_contact] without SMTP: the answer depends on [saved_id] alone. *)
Lemma send_contact_unconfigured p w sid w1 :
  smtp_configured w = false ->
  save_message p w = (Ok sid, w1) ->
  send_contact p w = store_only sid w1.
Proof.
  intros Hc Hs. unfold send_contact, bind, getenv. rewrite Hs.
  unfold smtp_configured in Hc.
  destruct (os_environ w !! "GMAIL_USER") as [user|]; [|reflexivity].
  destruct (os_environ w !! "GMAIL_APP_PASSWORD") as [password|]; [|reflexivity].
  destruct (Py.or_else (os_environ w !! "CONTACT_TO_EMAIL") (Some user))
    as [to|]; [|reflexivity].
  simpl in Hc. now rewrite Hc.
Qed.

End contact.

Section contact_route.
Context `{Pydantic}.
Import Main App.

(** A submission whose address does not validate is turned away by the
    framework: the handler does not run and the world is untouched. *)
Lemma contact_invalid_email_rejected n e m w :
  validate_email e = None ->
  post_contact n (Some e) m w = (unprocessable, w).
Proof.
  intros He. unfold post_contact, ContactPayload.new.
  destruct n, m; try reflexivity. now rewrite He.
Qed.

(** A message outside 1..5000 characters fails the [ContactMessage]
    schema, whatever the address. *)
Lemma contact_message_schema_rejects n e m :
  (String.length m < 1 \/ 5000 < String.length m)%nat ->
  exists err, ContactMessage.new n e m = Raise err.
Proof.
  intros Hlen. unfold ContactMessage.new.
  destruct (validate_email e); [|eauto].
  destruct (1 <=? String.length m)%nat eqn:H1;
    destruct (String.length m <=? 5000)%nat eqn:H2; simpl; eauto.
  apply Nat.leb_le in H1, H2. lia.
Qed.

(** The answer of the route when SMTP is configured. *)
Lemma post_contact_configured n e m p w sid w1 :
  ContactPayload.new n e m = Ok p ->
  smtp_configured w = true ->
  save_message p w = (Ok sid, w1) ->
  exists user password to,
    os_environ w !! "GMAIL_USER" = Some user /\
    os_environ w !! "GMAIL_APP_PASSWORD" = Some password /\
    Py.or_else (os_environ w !! "CONTACT_TO_EMAIL") (Some user) = Some to /\
    post_contact (Some n) (Some e) (Some m) w =
      (match faults w1 (length (trace w1)) with
       | None => Response 200 (Contact.mk "sent" None sid)
       | Some msg => Response 202 (Contact.mk "saved_only" (Some msg) sid)
       end,
       logged (EvSendmail user password (compose user to p)) w1).
Proof.
  intros Hp Hc Hs.
  destruct (send_contact_configured p w sid w1 Hc Hs)
    as (user & password & to & Hu & Hpw & Hto & Hsend).
  exists user, password, to. repeat split; try assumption.
  unfold post_contact. rewrite Hp. unfold serve_reply. rewrite Hsend.
  simpl. destruct (faults w1 (length (trace w1))); reflexivity.
Qed.

(** The answer of the route when SMTP is not configured. *)
Lemma post_contact_unconfigured n e m p w sid w1 :
  ContactPayload.new n e m = Ok p ->
  smtp_configured w = false ->
  save_message p w = (Ok sid, w1) ->
  post_contact (Some n) (Some e) (Some m) w =
    (if Py.truthy sid
     then Response 200 (Contact.mk "saved_only" None sid)
     else Error 500 "Email not configured and database unavailable.",
     w1).
Proof.
  intros Hp Hc Hs. unfold post_contact. rewrite Hp. unfold serve_reply.
  rewrite (send_contact_unconfigured p w sid w1 Hc Hs).
  unfold store_only. destruct (Py.truthy sid); reflexivity.
Qed.

(** C1 (the defect). A submission whose address validates but whose
    message is empty or longer than 5000 characters is not rejected:
    with SMTP configured the handler runs, stores nothing, and still
    attempts the e-mail, answering with a success or partial-success
    status. *)
Theorem contact_bad_message_is_mailed n e m p w :
  ContactPayload.new n e m = Ok p ->
  (String.length m < 1 \/ 5000 < String.length m)%nat ->
  smtp_configured w = true ->
  exists user password to code body,
    post_contact (Some n) (Some e) (Some m) w =
      (Response code body,
       logged (EvSendmail user password (compose user to p)) w) /\
    Contact.saved_id body = None /\
    (code = 200 \/ code = 202).
Proof.
  intros Hp Hlen Hc.
  assert (Hs : save_message p w = (Ok None, w)).
  { rewrite save_message_eq.
    assert (Hm : ContactPayload.message p = m).
    { unfold ContactPayload.new in Hp.
      destruct (validate_email e); [now injection Hp as <-|discriminate]. }
    rewrite Hm.
    destruct (contact_message_schema_rejects (ContactPayload.name p)
                (ContactPayload.email p) m Hlen) as [err ->].
    reflexivity. }
  destruct (post_contact_configured n e m p w None w Hp Hc Hs)
    as (user & password & to & _ & _ & _ & Hpost).
  exists user, password, to.
  destruct (faults w (length (trace w))) as [msg|].
  - exists 202, (Contact.mk "saved_only" (Some msg) None). rewrite Hpost. auto.
  - exists 200, (Contact.mk "sent" None None). rewrite Hpost. auto.
Qed.

(** C2 (the defect). With SMTP configured, when nothing was stored and
    the send fails as well, the route answers 202 with status
    ["saved_only"] and a null [saved_id], not an error. *)
Theorem contact_both_fail_answers_202 n e m p w w1 msg :
  ContactPayload.new n e m = Ok p ->
  smtp_configured w = true ->
  save_message p w = (Ok None, w1) ->
  faults w1 (length (trace w1)) = Some msg ->
  fst (post_contact (Some n) (Some e) (Some m) w) =
    Response 202 (Contact.mk "saved_only" (Some msg) None) /\
  db_collections (snd (post_contact (Some n) (Some e) (Some m) w)) =
    db_collections w.
Proof.
  intros Hp Hc Hs Hf.
  destruct (post_contact_configured n e m p w None w1 Hp Hc Hs)
    as (user & password & to & _ & _ & _ & Hpost).
  rewrite Hpost, Hf. simpl. split; [reflexivity|].
  now apply save_message_none in Hs as [-> _].
Qed.

(** C4 (as amended). With SMTP configured, an accepted submission gets
    exactly one send after the attempt to store it.  If the send
    succeeds the answer is 200 with status ["sent"] and [saved_id]; if it
    fails the answer is 202 with status ["saved_only"], the text of the
    raised exception as [warning], and [saved_id].  In both cases
    [saved_id] is the identifier of the stored record, or null when
    nothing was stored. *)
Theorem contact_with_smtp n e m p w :
  ContactPayload.new n e m = Ok p ->
  smtp_configured w = true ->
  exists sid w1,
    save_message p w = (Ok sid, w1) /\
    fst (post_contact (Some n) (Some e) (Some m) w) =
      match faults w1 (length (trace w1)) with
      | None => Response 200 (Contact.mk "sent" None sid)
      | Some msg => Response 202 (Contact.mk "saved_only" (Some msg) sid)
      end /\
    (forall i, sid = Some i ->
       exists doc, w1 = inserted "contactmessage" (ContactMessage.model_dump doc) w /\
                   i = str_oid (db_next_oid w)) /\
    (sid = None -> db_collections w1 = db_collections w).
Proof.
  intros Hp Hc.
  destruct (save_message_total p w) as (sid & w1 & Hs).
  exists sid, w1. split; [assumption|].
  destruct (post_contact_configured n e m p w sid w1 Hp Hc Hs)
    as (user & password & to & _ & _ & _ & Hpost).
  rewrite Hpost. split; [reflexivity|]. split.
  - intros i ->. destruct (save_message_some p w i w1 Hs) as (doc & _ & Hw & Hi).
    now exists doc.
  - intros ->. now apply save_message_none in Hs as [-> _].
Qed.

(** C6. Without SMTP, an accepted submission is answered 200 with
    status ["saved_only"] and the identifier when the record was stored,
    and 500 when it was not. *)
Theorem contact_without_smtp n e m p w :
  ContactPayload.new n e m = Ok p ->
  smtp_configured w = false ->
  exists sid w1,
    save_message p w = (Ok sid, w1) /\
    match sid with
    | Some i =>
        post_contact (Some n) (Some e) (Some m) w =
          (Response 200 (Contact.mk "saved_only" None (Some i)), w1) /\
        exists doc,
          w1 = inserted "contactmessage" (ContactMessage.model_dump doc) w /\
          i = str_oid (db_next_oid w)
    | None =>
        post_contact (Some n) (Some e) (Some m) w =
          (Error 500 "Email not configured and database unavailable.", w1) /\
        db_collections w1 = db_collections w
    end.
Proof.
  intros Hp Hc.
  destruct (save_message_total p w) as (sid & w1 & Hs).
  exists sid, w1. split; [assumption|].
  rewrite (post_contact_unconfigured n e m p w sid w1 Hp Hc Hs).
  destruct sid as [i|].
  - rewrite (save_message_truthy p w i w1 Hs). split; [reflexivity|].
    destruct (save_message_some p w i w1 Hs) as (doc & _ & Hw & Hi).
    now exists doc.
  - split; [reflexivity|]. now apply save_message_none in Hs as [-> _].
Qed.

End contact_route.

(** ** The upload handler *)

Section upload.
Context `{Pydantic}.
Import Main App.

Lemma os_remove_eq path w :
  os_remove path w =
    let w1 := logged (EvRemove path) w in
    match faults w (length (trace w)) with
    | Some msg => (Raise (Py.Exception msg), w1)
    | None =>
        match fs_files w !! path with
        | Some _ => (Ok tt, with_files (delete path (fs_files w)) w1)
        | None =>
            (Raise (Py.Exception ("[Errno 2] No such file or directory: " ++ path)),
             w1)
        end
    end.
Proof.
  unfold os_remove, bind, external, logged.
  destruct (faults w (length (trace w))); reflexivity.
Qed.

(** The world after the best-effort removal of [path]. *)
Lemma cleanup_eq path w :
  try_except (os_remove path) (fun _ => ret tt) w =
    (Ok tt, snd (os_remove path w)).
Proof.
  unfold try_except, ret. destruct (os_remove path w) as [[[]|e] w1]; reflexivity.
Qed.

Lemma validators_accept (i t u c : string) (d m : option string) (z : Z) :
  VideoOut.new (VStr i) (VStr t) (opt_str d) (VStr u) (opt_str m)
    (opt_int (Some z)) (VStr c) =
  Ok (VideoOut.mk i t d u m (Some z) (Some c)).
Proof. destruct d, m; reflexivity. Qed.

(** [upload_video], step by step. *)
Lemma upload_video_eq f t d w :
  upload_video f t d w =
    match faults w (length (trace w)) with
    | Some msg =>
        (Raise (Py.Exception msg),
         logged (EvWrite (upload_path f w) (UploadFile.read f)) w)
    | None =>
        match Database.create_document "video"
                (Video.model_dump (upload_record f t d w)) (written f w) with
        | (Ok i, w2) =>
            (Ok (VideoOut.mk i t d ("/uploads/" ++ upload_name f w)
                   (UploadFile.content_type f)
                   (Some (Z.of_nat (length (UploadFile.read f))))
                   (Some (Py.isoformat (clock w2 (length (trace w2)))))),
             w2)
        | (Raise e, w2) =>
            (Raise (Py.HTTPException 500 (Py.str_exn e)),
             snd (os_remove (upload_path f w) w2))
        end
    end.
Proof.
  unfold upload_video, bind at 1. unfold utcnow at 1.
  unfold bind at 1. unfold upload_dir.
  unfold bind at 1. unfold write_file, bind at 1. unfold external.
  fold (upload_name f w). fold (upload_path f w).
  destruct (faults w (length (trace w))) as [msg|]; [reflexivity|].
  fold (logged (EvWrite (upload_path f w) (UploadFile.read f)) w).
  change (with_files _ (logged _ w)) with (written f w).
  unfold bind at 1. unfold lift, Video.new.
  assert (Hsz : (0 <=? Z.of_nat (length (UploadFile.read f)))%Z = true)
    by (apply Z.leb_le; lia).
  rewrite Hsz. fold (upload_record f t d w).
  unfold bind at 1, try_except at 1.
  destruct (Database.create_document _ _ (written f w)) as [[i|e] w2].
  - unfold bind, utcnow, lift. cbn [Video.title Video.description
      Video.mime_type Video.size_bytes upload_record].
    now rewrite validators_accept.
  - unfold bind at 1. rewrite cleanup_eq. reflexivity.
Qed.

Lemma collection_inserted kind doc w :
  Database.collection kind (inserted kind doc w) =
    (Database.collection kind w ++ [<["_id" := VOid (db_next_oid w)]> doc])%list.
Proof.
  unfold Database.collection at 1, inserted. simpl.
  now rewrite lookup_insert_eq.
Qed.

Lemma collection_inserted_ne kind kind' doc w :
  kind <> kind' ->
  Database.collection kind' (inserted kind doc w) = Database.collection kind' w.
Proof.
  intros Hne. unfold Database.collection, inserted. simpl.
  now rewrite lookup_insert_ne.
Qed.

(** A served upload: the write and the insert both succeeded. *)
Lemma upload_served f t d w code v w' :
  serve (upload_video f t d) w = (Response code v, w') ->
  faults w (length (trace w)) = None /\
  w' = inserted "video" (Video.model_dump (upload_record f t d w)) (written f w) /\
  code = 200 /\
  v = VideoOut.mk (str_oid (db_next_oid w)) t d ("/uploads/" ++ upload_name f w)
        (UploadFile.content_type f)
        (Some (Z.of_nat (length (UploadFile.read f))))
        (Some (Py.isoformat (clock w (length (trace w'))))).
Proof.
  unfold serve. rewrite upload_video_eq.
  destruct (faults w (length (trace w))) as [msg|]; [discriminate|].
  rewrite create_document_eq.
  destruct (db (written f w)); [|discriminate].
  destruct (faults (written f w) _); [discriminate|].
  intros [= <- <- <-]. auto.
Qed.

End upload.

Section upload_results.
Context `{Pydantic}.
Import Main App.

(** What a failed insert leaves behind: the written file, the store as
    it was. *)
Lemma failed_insert_world f doc w e w2 :
  Database.create_document "video" doc (written f w) = (Raise e, w2) ->
  fs_files w2 = <[upload_path f w := UploadFile.read f]> (fs_files w) /\
  db_collections w2 = db_collections w /\
  faults w2 = faults w.
Proof.
  rewrite create_document_eq.
  destruct (db (written f w)); [|now intros [= _ <-]].
  destruct (faults (written f w) _); [now intros [= _ <-]|discriminate].
Qed.

(** C3 (as amended). When the file has been written and the insert of
    the record then fails with exception [e], the handler attempts to
    remove the file and raises [HTTPException(500, str(e))], whatever the
    removal did; no record is added to the store.  If the removal did not
    fail the file is gone afterwards; if it failed, the failure is
    swallowed and the file is still there. *)
Theorem upload_cleanup f t d w e w2 :
  faults w (length (trace w)) = None ->
  Database.create_document "video" (Video.model_dump (upload_record f t d w))
    (written f w) = (Raise e, w2) ->
  exists w3,
    serve (upload_video f t d) w = (Error 500 (Py.str_exn e), w3) /\
    db_collections w3 = db_collections w /\
    trace w3 = (trace w2 ++ [EvRemove (upload_path f w)])%list /\
    match faults w (length (trace w2)) with
    | None => fs_files w3 !! upload_path f w = None
    | Some _ => fs_files w3 !! upload_path f w = Some (UploadFile.read f)
    end.
Proof.
  intros Hw Hins.
  destruct (failed_insert_world f _ w e w2 Hins) as (Hfs & Hdb & Hfa).
  exists (snd (os_remove (upload_path f w) w2)). split.
  - unfold serve. rewrite upload_video_eq, Hw, Hins. reflexivity.
  - rewrite os_remove_eq, Hfa, Hfs, lookup_insert_eq.
    destruct (faults w (length (trace w2))); simpl;
      (split; [assumption|split; [reflexivity|]]).
    + rewrite Hfs. apply lookup_insert_eq.
    + apply lookup_delete_eq.
Qed.

(** The stored form of a field of the record just inserted. *)
Lemma last_video_inserted v w :
  last (Database.collection "video" (inserted "video" (Video.model_dump v) w)) =
    Some (<["_id" := VOid (db_next_oid w)]> (Video.model_dump v)).
Proof. rewrite collection_inserted. apply last_snoc. Qed.

Lemma stored_title v (o : value) :
  (<["_id" := o]> (Video.model_dump v)) !! "title" = Some (VStr (Video.title v)).
Proof.
  rewrite lookup_insert_ne by discriminate.
  unfold Video.model_dump. apply lookup_insert_eq.
Qed.

Lemma stored_filename v (o : value) :
  (<["_id" := o]> (Video.model_dump v)) !! "filename" =
    Some (VStr (Video.filename v)).
Proof.
  rewrite lookup_insert_ne by discriminate.
  unfold Video.model_dump.
  do 2 (rewrite lookup_insert_ne by discriminate). apply lookup_insert_eq.
Qed.

Lemma stored_created_at v (o : value) :
  (<["_id" := o]> (Video.model_dump v)) !! "created_at" = None.
Proof.
  rewrite lookup_insert_ne by discriminate.
  unfold Video.model_dump.
  do 6 (rewrite lookup_insert_ne by discriminate). apply lookup_empty.
Qed.

(** What the route does with the form fields before the handler runs. *)
Lemma post_videos_inv file title description w code v w' :
  post_videos file title description w = (Response code v, w') ->
  exists f t,
    file = Some f /\ title = Some t /\ t <> "" /\
    serve (upload_video f t (form_value description)) w = (Response code v, w').
Proof.
  unfold post_videos.
  destruct file as [f|]; [|destruct (form_value title); discriminate].
  destruct title as [[|c t]|]; simpl; try discriminate.
  intros Hs. exists f, (String c t). repeat split; [discriminate|assumption].
Qed.

(** C5. An upload the route accepts has a non-empty title, which is the
    title of the stored record and of the answer; an upload whose title
    field is empty is rejected with status 422 before the handler runs. *)
Theorem upload_title_nonempty file title description w r w' :
  post_videos file title description w = (r, w') ->
  (title = Some "" -> r = Error 422 "Unprocessable Entity" /\ w' = w) /\
  (forall code v, r = Response code v ->
     exists t rec,
       title = Some t /\ t <> "" /\ VideoOut.title v = t /\
       last (Database.collection "video" w') = Some rec /\
       rec !! "title" = Some (VStr t)).
Proof.
  intros Hpost. split.
  - intros ->. unfold post_videos in Hpost. simpl in Hpost.
    destruct file; now injection Hpost as <- <-.
  - intros code v ->.
    destruct (post_videos_inv _ _ _ _ _ _ _ Hpost) as (f & t & -> & -> & Ht & Hs).
    destruct (upload_served _ _ _ _ _ _ _ Hs) as (_ & -> & _ & ->).
    eexists t, _. repeat split; [assumption| |].
    + apply last_video_inserted.
    + apply stored_title.
Qed.

(** C7. After an accepted upload the generated name is the tag
    ["video_"], the UTC time read at the start of the request printed as
    year, month, day, hour, minute, second and six digits of
    microseconds, and the extension of the declared file name; the url
    of the answer is ["/uploads/"] followed by that name; [size_bytes] is
    the number of bytes received; and the file the url is served from
    holds exactly those bytes.  The stored record carries the same
    name. *)
Theorem upload_name_url_size f title description w v w' :
  post_videos (Some f) title description w = (Response 200 v, w') ->
  let now := clock w (length (trace w)) in
  let name :=
    "video_" ++
    (Py.zfill 4 (Py.year now) ++ Py.zfill 2 (Py.month now) ++
     Py.zfill 2 (Py.day now) ++ Py.zfill 2 (Py.hour now) ++
     Py.zfill 2 (Py.minute now) ++ Py.zfill 2 (Py.second now) ++
     Py.zfill 6 (Py.microsecond now)) ++
    snd (Py.splitext (UploadFile.filename f)) in
  VideoOut.url v = "/uploads/" ++ name /\
  VideoOut.size_bytes v = Some (Z.of_nat (length (UploadFile.read f))) /\
  (exists path,
     static_path w' (VideoOut.url v) = Some path /\
     path = Py.path_join (UPLOAD_DIR w) name /\
     fs_files w' !! path = Some (UploadFile.read f)) /\
  (exists rec,
     last (Database.collection "video" w') = Some rec /\
     rec !! "filename" = Some (VStr name)).
Proof.
  intros Hpost now name.
  destruct (post_videos_inv _ _ _ _ _ _ _ Hpost) as (f' & t & [= <-] & -> & Ht & Hs).
  destruct (upload_served _ _ _ _ _ _ _ Hs) as (_ & -> & _ & ->).
  change name with (upload_name f w).
  split; [reflexivity|]. split; [reflexivity|]. split.
  - exists (upload_path f w). split; [reflexivity|]. split; [reflexivity|].
    simpl. apply lookup_insert_eq.
  - eexists. split; [apply last_video_inserted|]. apply stored_filename.
Qed.

End upload_results.

(** ** The diagnostics endpoint *)

Section diagnostics.
Import Main App.

Lemma list_collection_names_eq w :
  list_collection_names w =
    let w1 := logged EvListCollectionNames w in
    match faults w (length (trace w)) with
    | Some msg => (Raise (Py.Exception msg), w1)
    | None => (Ok ((map_to_list (db_collections w)).*1), w1)
    end.
Proof.
  unfold list_collection_names, bind, external, logged.
  destruct (faults w (length (trace w))); reflexivity.
Qed.

(** [test_database], case by case. *)
Lemma test_database_eq w :
  test_database w =
    let r0 := Diagnostics.mk "✅ Running" "❌ Not Available" None None
                "Not Connected" [] in
    let finish r :=
      Diagnostics.set_database_name (set_or_not (os_environ w !! "DATABASE_NAME"))
        (Diagnostics.set_database_url
           (set_or_not (os_environ w !! "DATABASE_URL")) r) in
    if db w then
      match faults w (length (trace w)) with
      | None =>
          (Ok (finish
                 (Diagnostics.set_database "✅ Connected & Working"
                    (Diagnostics.set_collections
                       (take 10 ((map_to_list (db_collections w)).*1))
                       (Diagnostics.set_database "✅ Available" r0)))),
           logged EvListCollectionNames w)
      | Some msg =>
          (Ok (finish
                 (Diagnostics.set_database
                    ("⚠️  Connected but Error: " ++ Py.str_take 50 msg)
                    (Diagnostics.set_database "✅ Available" r0))),
           logged EvListCollectionNames w)
      end
    else
      (Ok (finish
             (Diagnostics.set_database "⚠️  Available but not initialized" r0)),
       w).
Proof.
  unfold test_database, bind at 1. unfold try_except at 1.
  unfold bind at 1. unfold db_is_not_None.
  destruct (db w); [|reflexivity].
  unfold try_except, bind at 1. rewrite list_collection_names_eq.
  destruct (faults w (length (trace w))); reflexivity.
Qed.

(** C9. The diagnostics route always answers 200 with a report: an
    unreachable store shows as an error text in [database]; [collections]
    holds at most the first ten collection names; the two variables are
    reported as set or not set, so the report is the same under any
    environment in which each variable is set (non-empty) or not as in
    this one; and neither the store nor the file system is written. *)
Theorem diagnostics_report w env :
  Py.truthy (env !! "DATABASE_URL") = Py.truthy (os_environ w !! "DATABASE_URL") ->
  Py.truthy (env !! "DATABASE_NAME") = Py.truthy (os_environ w !! "DATABASE_NAME") ->
  exists r w',
    get_test w = (Response 200 r, w') /\
    fst (get_test (with_environ env w)) = Response 200 r /\
    (forall msg, db w = true -> faults w (length (trace w)) = Some msg ->
       Diagnostics.database r =
         "⚠️  Connected but Error: " ++ Py.str_take 50 msg) /\
    (db w = false ->
       Diagnostics.database r = "⚠️  Available but not initialized") /\
    length (Diagnostics.collections r) <= 10 /\
    (Diagnostics.collections r = [] \/
     Diagnostics.collections r = take 10 ((map_to_list (db_collections w)).*1)) /\
    Diagnostics.database_url r =
      Some (if Py.truthy (os_environ w !! "DATABASE_URL")
            then "✅ Set" else "❌ Not Set") /\
    Diagnostics.database_name r =
      Some (if Py.truthy (os_environ w !! "DATABASE_NAME")
            then "✅ Set" else "❌ Not Set") /\
    db_collections w' = db_collections w /\
    db_next_oid w' = db_next_oid w /\
    fs_files w' = fs_files w /\
    (trace w' = trace w \/ trace w' = (trace w ++ [EvListCollectionNames])%list).
Proof.
  intros Hurl Hname. unfold get_test, serve.
  rewrite !test_database_eq. cbn [with_environ os_environ db faults trace
    db_collections]. unfold set_or_not. rewrite Hurl, Hname.
  destruct (db w) eqn:Hdb.
  - destruct (faults w (length (trace w))) as [msg|] eqn:Hf;
      eexists _, _; (split; [reflexivity|]); (split; [reflexivity|]); simpl.
    + repeat split; auto; try discriminate; try lia.
      intros msg' _ [= <-]. reflexivity.
    + repeat split; auto; try discriminate.
      rewrite length_take. lia.
  - eexists _, _; (split; [reflexivity|]); (split; [reflexivity|]); simpl.
    repeat split; auto; try discriminate; lia.
Qed.

End diagnostics.

(** ** The listing handler *)

Section listing.
Context `{Pydantic}.
Import Main App.

Lemma filter_empty_all (l : list document) :
  filter (fun d : document => (∅ : document) ⊆ d) l = l.
Proof.
  induction l as [|d l IH]; [reflexivity|].
  rewrite filter_cons_True by apply map_empty_subseteq. now rewrite IH.
Qed.

Lemma get_documents_eq kind limit w :
  Database.get_documents kind ∅ limit w =
    if db w then
      match faults w (length (trace w)) with
      | None =>
          (Ok (take (Z.to_nat limit) (Database.collection kind w)),
           logged (EvFind kind ∅ limit) w)
      | Some msg => (Raise (Py.Exception msg), logged (EvFind kind ∅ limit) w)
      end
    else (Raise (Py.Exception Database.unavailable), w).
Proof.
  unfold Database.get_documents, bind, external, logged.
  destruct (db w); [|reflexivity].
  destruct (faults w (length (trace w))); [reflexivity|].
  simpl. unfold Database.collection at 1. simpl.
  fold (Database.collection kind w). now rewrite filter_empty_all.
Qed.

Lemma as_opt_str_inv x o : VideoOut.as_opt_str x = Some o -> x = opt_str o.
Proof. destruct x; simpl; intros [= <-]; reflexivity. Qed.

Lemma as_str_inv x s : VideoOut.as_str x = Some s -> x = VStr s.
Proof. destruct x; simpl; intros [= <-]; reflexivity. Qed.

(** The mapping of one record, when the response model accepts it. *)
Lemma video_out_of_shape d v :
  video_out_of d = Ok v -> public_shape d v.
Proof.
  unfold video_out_of, VideoOut.new, dict_get, dict_get_default. simpl.
  destruct (VideoOut.as_str (default (VStr "Untitled") (d !! "title")))
    as [t|] eqn:Ht; [|discriminate].
  destruct (VideoOut.as_opt_str (default VNone (d !! "description")))
    as [de|] eqn:Hd; [|discriminate].
  destruct (VideoOut.as_str (default (VStr "") (d !! "url")))
    as [u|] eqn:Hu; [|discriminate].
  destruct (VideoOut.as_opt_str (default VNone (d !! "mime_type")))
    as [m|] eqn:Hm; [|discriminate].
  destruct (VideoOut.as_opt_int (default VNone (d !! "size_bytes")))
    as [sz|] eqn:Hsz; [|discriminate].
  destruct (VideoOut.as_opt_str
              (if truthy_value (default VNone (d !! "created_at"))
               then VStr (py_str (default VNone (d !! "created_at")))
               else VNone)) as [c|] eqn:Hc; [|discriminate].
  intros [= <-]. unfold public_shape, dict_get. simpl.
  apply as_str_inv in Ht, Hu. apply as_opt_str_inv in Hd, Hm.
  split; [reflexivity|].
  split; [destruct (d !! "title"); simpl in Ht; congruence|].
  split; [destruct (d !! "description"), de; simpl in Hd |- *; congruence|].
  split; [destruct (d !! "url"); simpl in Hu; congruence|].
  split; [destruct (d !! "mime_type"), m; simpl in Hm |- *; congruence|].
  split; [destruct (d !! "size_bytes"); simpl in Hsz; congruence|].
  destruct (d !! "created_at") as [x|]; simpl in Hc.
  - destruct (truthy_value x); simpl in Hc; congruence.
  - congruence.
Qed.

(** A conforming record is accepted. *)
Lemma video_out_of_total d :
  conforms d = true -> exists v, video_out_of d = Ok v.
Proof.
  unfold conforms, video_out_of, VideoOut.new. intros Hc.
  repeat (apply andb_prop in Hc as [Hc ?]).
  destruct (dict_get_default d "title" (VStr "Untitled")); try discriminate.
  destruct (dict_get_default d "url" (VStr "")); try discriminate.
  assert (Hd : exists o, VideoOut.as_opt_str (dict_get d "description") = Some o)
    by (destruct (dict_get d "description"); try discriminate; simpl; eauto).
  assert (Hm : exists o, VideoOut.as_opt_str (dict_get d "mime_type") = Some o)
    by (destruct (dict_get d "mime_type"); try discriminate; simpl; eauto).
  assert (Hs : exists o, VideoOut.as_opt_int (dict_get d "size_bytes") = Some o).
  { destruct (dict_get d "size_bytes"); try discriminate; simpl; eauto.
    simpl in *. destruct (int_of_str s1); [eauto|discriminate]. }
  destruct Hd as [? ->], Hm as [? ->], Hs as [? ->]. simpl.
  destruct (truthy_value (dict_get d "created_at")); simpl; eauto.
Qed.

(** The loop appends to [out] the mapping of each record, in order. *)
Lemma for_each_doc_ok docs : forall out res,
  for_each_doc docs out = Ok res ->
  exists vs, res = (out ++ vs)%list /\
             Forall2 (fun d v => video_out_of d = Ok v) docs vs.
Proof.
  induction docs as [|d docs IH]; intros out res; simpl.
  - intros [= <-]. exists []. split; [now rewrite app_nil_r|constructor].
  - destruct (video_out_of d) as [v|e] eqn:Hv; [|discriminate].
    intros Hres. destruct (IH _ _ Hres) as (vs & -> & Hall).
    exists (v :: vs). split; [now rewrite <- app_assoc|now constructor].
Qed.

Lemma for_each_doc_total docs : forall out,
  Forall (fun d => conforms d = true) docs ->
  exists res, for_each_doc docs out = Ok res.
Proof.
  induction docs as [|d docs IH]; intros out Hall; simpl; [eauto|].
  inversion Hall as [|? ? Hd Hrest]; subst.
  destruct (video_out_of_total d Hd) as [v ->]. now apply IH.
Qed.

(** C8. A listing request asks the store once, for the records of kind
    ["video"] under the empty filter, with the limit it was given (50
    when none was given, any integer otherwise).  When the store answers
    with [docs] there are at most [limit] of them, every answer of the
    route lists their public shapes in order, and the route does answer
    when the records have the declared field types. *)
Theorem list_videos_public_shape limit w docs w1 :
  Database.get_documents "video" ∅ (default 50%Z limit) w = (Ok docs, w1) ->
  trace w1 = (trace w ++ [EvFind "video" ∅ (default 50%Z limit)])%list /\
  docs = take (Z.to_nat (default 50%Z limit)) (Database.collection "video" w) /\
  length docs <= Z.to_nat (default 50%Z limit) /\
  (forall code vs w',
     get_videos limit w = (Response code vs, w') ->
     code = 200 /\ w' = w1 /\ Forall2 public_shape docs vs) /\
  (Forall (fun d => conforms d = true) docs ->
   exists vs, get_videos limit w = (Response 200 vs, w1)).
Proof.
  intros Hq. pose proof Hq as Hq'. rewrite get_documents_eq in Hq'.
  destruct (db w); [|discriminate].
  destruct (faults w (length (trace w))); [discriminate|].
  injection Hq' as <- <-.
  assert (Hserve : get_videos limit w =
            match for_each_doc (take (Z.to_nat (default 50%Z limit))
                                  (Database.collection "video" w)) [] with
            | Ok vs => (Response 200 vs, logged (EvFind "video" ∅ (default 50%Z limit)) w)
            | Raise e => (error_of e, logged (EvFind "video" ∅ (default 50%Z limit)) w)
            end).
  { unfold get_videos, serve, list_videos, bind, try_except. rewrite Hq.
    unfold lift. destruct (for_each_doc _ _); reflexivity. }
  split; [reflexivity|]. split; [reflexivity|].
  split; [rewrite length_take; lia|]. split.
  - intros code vs w'. rewrite Hserve.
    destruct (for_each_doc _ _) as [res|e] eqn:Hres.
    + intros [= <- <- <-]. split; [reflexivity|]. split; [reflexivity|].
      destruct (for_each_doc_ok _ _ _ Hres) as (vs & -> & Hall). simpl.
      eapply Forall2_impl; [exact Hall|]. intros d v. apply video_out_of_shape.
    + destruct e; discriminate.
  - intros Hall. rewrite Hserve.
    destruct (for_each_doc_total _ [] Hall) as [res ->]. eauto.
Qed.

End listing.

(** ** The creation time is never stored *)

Section created_at.
Context `{Pydantic}.
Import Main App.

Lemma os_remove_collection path kind w :
  Database.collection kind (snd (os_remove path w)) = Database.collection kind w.
Proof.
  rewrite os_remove_eq. simpl.
  destruct (faults w (length (trace w))); [reflexivity|].
  destruct (fs_files w !! path); reflexivity.
Qed.

Lemma upload_video_preserves f t d w :
  no_created_at w -> no_created_at (snd (upload_video f t d w)).
Proof.
  intros Inv. rewrite upload_video_eq.
  destruct (faults w (length (trace w))); [exact Inv|].
  rewrite create_document_eq.
  destruct (db (written f w)).
  - destruct (faults (written f w) _); simpl.
    + unfold no_created_at. now rewrite os_remove_collection.
    + unfold no_created_at. rewrite collection_inserted.
      apply Forall_app. split; [exact Inv|].
      constructor; [apply stored_created_at|constructor].
  - simpl. unfold no_created_at. now rewrite os_remove_collection.
Qed.

Lemma save_message_video p w r w1 :
  save_message p w = (r, w1) ->
  Database.collection "video" w1 = Database.collection "video" w.
Proof.
  rewrite save_message_eq.
  destruct (ContactMessage.new _ _ _); [|now intros [= _ <-]].
  rewrite create_document_eq.
  destruct (db w); [|now intros [= _ <-]].
  destruct (faults w (length (trace w))); intros [= _ <-]; [reflexivity|].
  now apply collection_inserted_ne.
Qed.

Lemma send_contact_video p w :
  Database.collection "video" (snd (send_contact p w)) =
    Database.collection "video" w.
Proof.
  destruct (save_message_total p w) as (sid & w1 & Hs).
  rewrite <- (save_message_video p w _ w1 Hs).
  destruct (smtp_configured w) eqn:Hc.
  - destruct (send_contact_configured p w sid w1 Hc Hs)
      as (user & password & to & _ & _ & _ & ->).
    destruct (faults w1 (length (trace w1))); reflexivity.
  - rewrite (send_contact_unconfigured p w sid w1 Hc Hs).
    unfold store_only. destruct (Py.truthy sid); reflexivity.
Qed.

Lemma serve_reply_world c w : snd (serve_reply c w) = snd (c w).
Proof.
  unfold serve_reply. destruct (c w) as [[[b|code b]|e] w1]; reflexivity.
Qed.

Lemma serve_world {A} (c : M A) w : snd (serve c w) = snd (c w).
Proof. unfold serve. destruct (c w) as [[a|e] w1]; reflexivity. Qed.

Lemma post_contact_video n e m w :
  Database.collection "video" (snd (post_contact n e m w)) =
    Database.collection "video" w.
Proof.
  unfold post_contact. destruct n, e, m; try reflexivity.
  destruct (ContactPayload.new _ _ _); [|reflexivity].
  rewrite serve_reply_world. apply send_contact_video.
Qed.

Lemma get_videos_video limit w :
  Database.collection "video" (snd (get_videos limit w)) =
    Database.collection "video" w.
Proof.
  unfold get_videos. rewrite serve_world.
  unfold list_videos, bind, try_except, lift, raise.
  rewrite get_documents_eq.
  destruct (db w); [|reflexivity].
  destruct (faults w (length (trace w))); reflexivity.
Qed.

Lemma get_test_video w :
  Database.collection "video" (snd (get_test w)) = Database.collection "video" w.
Proof.
  unfold get_test. rewrite serve_world, test_database_eq. simpl.
  destruct (db w); [|reflexivity].
  destruct (faults w (length (trace w))); reflexivity.
Qed.

(** Every route keeps the invariant. *)
Lemma handle_preserves rq w :
  no_created_at w -> no_created_at (snd (handle rq w)).
Proof.
  intros Inv. unfold no_created_at in *. destruct rq as [| |f t d|l|n e m]; simpl.
  - exact Inv.
  - destruct (get_test w) as [r w0] eqn:E. simpl.
    change w0 with (snd (r, w0)). rewrite <- E. now rewrite get_test_video.
  - destruct (post_videos f t d w) as [r w0] eqn:E. simpl.
    change w0 with (snd (r, w0)). rewrite <- E. unfold post_videos.
    destruct f as [f|]; [|destruct (form_value t); exact Inv].
    destruct (form_value t); [|exact Inv].
    rewrite serve_world. now apply upload_video_preserves.
  - destruct (get_videos l w) as [r w0] eqn:E. simpl.
    change w0 with (snd (r, w0)). rewrite <- E. now rewrite get_videos_video.
  - destruct (post_contact n e m w) as [r w0] eqn:E. simpl.
    change w0 with (snd (r, w0)). rewrite <- E. now rewrite post_contact_video.
Qed.

(** What a listing answers, record by record. *)
Lemma get_videos_inv limit w code vs w' :
  get_videos limit w = (Response code vs, w') ->
  Forall2 (fun d v => video_out_of d = Ok v)
    (take (Z.to_nat (default 50%Z limit)) (Database.collection "video" w)) vs.
Proof.
  unfold get_videos, serve, list_videos, bind, try_except, lift, raise.
  rewrite get_documents_eq.
  destruct (db w); [|discriminate].
  destruct (faults w (length (trace w))); [discriminate|].
  destruct (for_each_doc _ _) as [res|e] eqn:Hres; [|destruct e; discriminate].
  intros [= _ <- _].
  destruct (for_each_doc_ok _ _ _ Hres) as (vs & -> & Hall). exact Hall.
Qed.

Lemma listed_created_at limit w code vs w' :
  no_created_at w ->
  get_videos limit w = (Response code vs, w') ->
  Forall (fun v => VideoOut.created_at v = None) vs.
Proof.
  intros Inv Hl. apply get_videos_inv in Hl.
  assert (Hd : Forall (fun d : document => d !! "created_at" = None)
                 (take (Z.to_nat (default 50%Z limit))
                    (Database.collection "video" w)))
    by now apply Forall_take.
  revert Hd. induction Hl as [|d v docs vs Hv _ IH]; intros Hd; constructor.
  - inversion Hd as [|? ? Hc _]; subst.
    apply video_out_of_shape in Hv.
    destruct Hv as (_ & _ & _ & _ & _ & _ & Hca). now rewrite Hc in Hca.
  - inversion Hd; subst. now apply IH.
Qed.

Lemma uploaded_created_at f t d w code v w' :
  post_videos f t d w = (Response code v, w') ->
  is_Some (VideoOut.created_at v).
Proof.
  intros Hp.
  destruct (post_videos_inv _ _ _ _ _ _ _ Hp) as (f' & t' & -> & -> & _ & Hs).
  destruct (upload_served _ _ _ _ _ _ _ Hs) as (_ & _ & _ & ->). simpl. eauto.
Qed.

Lemma run_created_at rqs : forall w rs w',
  no_created_at w ->
  run rqs w = (rs, w') ->
  (forall code v,
     In (Uploaded (Response code v)) rs -> is_Some (VideoOut.created_at v)) /\
  (forall code vs,
     In (Listed (Response code vs)) rs ->
     Forall (fun v => VideoOut.created_at v = None) vs) /\
  no_created_at w'.
Proof.
  induction rqs as [|rq rqs IH]; intros w rs w' Inv; simpl.
  - intros [= <- <-]. repeat split; [intros ? ? []|intros ? ? []|exact Inv].
  - destruct (handle rq w) as [r w1] eqn:Hh.
    destruct (run rqs w1) as [rs1 w2] eqn:Hr.
    intros [= <- <-].
    assert (Inv1 : no_created_at w1).
    { change w1 with (snd (r, w1)). rewrite <- Hh. now apply handle_preserves. }
    destruct (IH _ _ _ Inv1 Hr) as (Hup & Hli & Inv2).
    repeat split; [| |exact Inv2].
    + intros code v [Heq|Hin]; [|now apply (Hup code)].
      subst r. destruct rq as [| |f t d|l|n e m]; simpl in Hh;
        try (destruct (get_root w); discriminate);
        try (destruct (get_test w); discriminate);
        try (destruct (get_videos l w); discriminate);
        try (destruct (post_contact n e m w); discriminate).
      destruct (post_videos f t d w) as [h w0] eqn:Hp. injection Hh as -> ->.
      now apply (uploaded_created_at _ _ _ _ _ _ _ Hp).
    + intros code vs [Heq|Hin]; [|now apply (Hli code)].
      subst r. destruct rq as [| |f t d|l|n e m]; simpl in Hh;
        try (destruct (get_root w); discriminate);
        try (destruct (get_test w); discriminate);
        try (destruct (post_videos f t d w); discriminate);
        try (destruct (post_contact n e m w); discriminate).
      destruct (get_videos l w) as [h w0] eqn:Hg. injection Hh as -> ->.
      now apply (listed_created_at _ _ _ _ _ Inv Hg).
Qed.

(** C10. The record the upload handler stores has no [created_at] field,
    while its answer carries one computed at response time.  So in a
    process that starts with no video records, after any sequence of
    requests every upload answer has a [created_at], every video a
    listing returns has none, and no stored video record has the field. *)
Theorem created_at_not_persisted rqs w rs w' :
  Database.collection "video" w = [] ->
  run rqs w = (rs, w') ->
  (forall v, Video.model_dump v !! "created_at" = None) /\
  (forall code v,
     In (Uploaded (Response code v)) rs -> is_Some (VideoOut.created_at v)) /\
  (forall code vs,
     In (Listed (Response code vs)) rs ->
     Forall (fun v => VideoOut.created_at v = None) vs) /\
  no_created_at w'.
Proof.
  intros Hempty Hrun. split.
  - intros v. unfold Video.model_dump.
    do 6 (rewrite lookup_insert_ne by discriminate). apply lookup_empty.
  - apply (run_created_at rqs w rs w'); [|exact Hrun].
    unfold no_created_at. rewrite Hempty. constructor.
Qed.

End created_at.

(** ** The handlers on concrete requests *)

Section examples.
Import Main App Sample.


(** An empty message reaches the mail server of a configured process. *)
Lemma contact_bad_message_is_mailed_witness :
  let w := world smtp_env true no_fault in
  exists user password to code body,
    @post_contact lib (Some "Ann") (Some "ann@example.org") (Some "") w =
      (Response code body,
       logged (EvSendmail user password
                 (compose user to (ContactPayload.mk "Ann" "ann@example.org" "")))
         w) /\
    Contact.saved_id body = None /\
    (code = 200 \/ code = 202).
Proof.
  intros w.
  apply (@contact_bad_message_is_mailed lib "Ann" "ann@example.org" ""
           (ContactPayload.mk "Ann" "ann@example.org" "") w).
  - reflexivity.
  - left. simpl. lia.
  - vm_compute. reflexivity.
Defined.

(** No store and a failing send: the answer is 202. *)
Lemma contact_both_fail_answers_202_witness :
  let w := world smtp_env false (fail_at 0 "smtp down") in
  fst (@post_contact lib (Some "Ann") (Some "ann@example.org") (Some "hello") w) =
    Response 202 (Contact.mk "saved_only" (Some "smtp down") None) /\
  db_collections
    (snd (@post_contact lib (Some "Ann") (Some "ann@example.org") (Some "hello") w)) =
    db_collections w.
Proof.
  intros w.
  apply (@contact_both_fail_answers_202 lib "Ann" "ann@example.org" "hello"
           ann w w "smtp down").
  - reflexivity.
  - vm_compute. reflexivity.
  - vm_compute. reflexivity.
  - reflexivity.
Defined.

(** C4, as stated, fails here: the send raises an exception without
    text, and the warning of the 202 answer is the empty string. *)
Lemma contact_warning_can_be_empty :
  let w := world smtp_env true (fail_at 1 "") in
  smtp_configured w = true /\
  fst (@post_contact lib (Some "Ann") (Some "ann@example.org") (Some "hello") w) =
    Response 202 (Contact.mk "saved_only" (Some "") (Some "1")) /\
  ~ (exists s body,
       s <> "" /\ Contact.warning body = Some s /\
       fst (@post_contact lib (Some "Ann") (Some "ann@example.org")
              (Some "hello") w) = Response 202 body).
Proof.
  intros w. split; [vm_compute; reflexivity|].
  assert (E : fst (@post_contact lib (Some "Ann") (Some "ann@example.org")
                     (Some "hello") w) =
              Response 202 (Contact.mk "saved_only" (Some "") (Some "1")))
    by (vm_compute; reflexivity).
  split; [exact E|].
  intros (s & body & Hs & Hw & Hr). rewrite E in Hr.
  injection Hr as <-. simpl in Hw. congruence.
Qed.

Lemma contact_with_smtp_witness :
  let w := world smtp_env true (fail_at 1 "smtp down") in
  fst (@post_contact lib (Some "Ann") (Some "ann@example.org") (Some "hello") w) =
    Response 202 (Contact.mk "saved_only" (Some "smtp down") (Some "1")).
Proof.
  intros w.
  destruct (@contact_with_smtp lib "Ann" "ann@example.org" "hello" ann w)
    as (sid & w1 & Hs & Hr & _).
  - reflexivity.
  - vm_compute. reflexivity.
  - vm_compute. reflexivity.
Defined.

Lemma contact_without_smtp_witness :
  let w := world ∅ true no_fault in
  @post_contact lib (Some "Ann") (Some "ann@example.org") (Some "hello") w =
    (Response 200 (Contact.mk "saved_only" None (Some "1")),
     inserted "contactmessage" (ContactMessage.model_dump
                                  (ContactMessage.mk "Ann" "ann@example.org" "hello")) w).
Proof.
  intros w.
  destruct (@contact_without_smtp lib "Ann" "ann@example.org" "hello" ann w)
    as (sid & w1 & Hs & Hr).
  - reflexivity.
  - vm_compute. reflexivity.
  - vm_compute. reflexivity.
Defined.

(** C3, as stated, fails here: the insert fails, the removal fails too
    and is swallowed, and the written file is still there. *)
Lemma upload_cleanup_can_leave_file :
  let w := world ∅ true
             (fun i => match i with
                       | 1 => Some "db down"
                       | 2 => Some "busy"
                       | _ => None
                       end) in
  let out := @post_videos lib (Some clip) (Some "Holiday") None w in
  fst out = Error 500 "db down" /\
  trace (snd out) =
    [EvWrite video_path (UploadFile.read clip);
     EvInsert "video" (Video.model_dump (upload_record clip "Holiday" None w));
     EvRemove video_path] /\
  fs_files (snd out) !! video_path = Some (UploadFile.read clip) /\
  fs_files (snd out) !! video_path <> None.
Proof.
  intros w out. split; [vm_compute; reflexivity|].
  split; [vm_compute; reflexivity|].
  assert (E : fs_files (snd out) !! video_path = Some (UploadFile.read clip))
    by (vm_compute; reflexivity).
  split; [exact E|]. rewrite E. discriminate.
Qed.

Lemma upload_cleanup_witness :
  let w := world ∅ true (fail_at 1 "db down") in
  exists w3,
    serve (@upload_video lib clip "Holiday" None) w = (Error 500 "db down", w3) /\
    db_collections w3 = db_collections w /\
    fs_files w3 !! upload_path clip w = None.
Proof.
  intros w.
  destruct (@upload_cleanup lib clip "Holiday" None w (Py.Exception "db down")
              (logged (EvInsert "video"
                         (Video.model_dump (upload_record clip "Holiday" None w)))
                 (written clip w)))
    as (w3 & Hs & Hdb & _ & Hfs).
  - reflexivity.
  - vm_compute. reflexivity.
  - exists w3. split; [exact Hs|]. split; [exact Hdb|]. exact Hfs.
Defined.

Lemma upload_title_nonempty_witness :
  let w := world ∅ true no_fault in
  let out := @post_videos lib (Some clip) (Some "Holiday") None w in
  exists v rec,
    fst out = Response 200 v /\
    VideoOut.title v = "Holiday" /\
    last (Database.collection "video" (snd out)) = Some rec /\
    rec !! "title" = Some (VStr "Holiday").
Proof.
  intros w out.
  destruct (@upload_title_nonempty lib (Some clip) (Some "Holiday") None w
              (fst out) (snd out)) as [_ Hacc].
  - apply surjective_pairing.
  - set (v := VideoOut.mk "1" "Holiday" None "/uploads/video_20240102030405000678.mp4"
                (Some "video/mp4") (Some 3%Z) (Some "2024-01-02T03:04:05.000678")).
    assert (E : fst out = Response 200 v) by (vm_compute; reflexivity).
    destruct (Hacc 200 v E) as (t & rec & Ht & _ & Htitle & Hlast & Hrec).
    injection Ht as <-.
    exists v, rec. repeat split; assumption.
Defined.

Lemma upload_name_url_size_witness :
  let w := world ∅ true no_fault in
  let out := @post_videos lib (Some clip) (Some "Holiday") None w in
  exists v,
    fst out = Response 200 v /\
    VideoOut.url v = "/uploads/video_20240102030405000678.mp4" /\
    VideoOut.size_bytes v = Some 3%Z /\
    fs_files (snd out) !! video_path = Some (UploadFile.read clip).
Proof.
  intros w out.
  set (v := VideoOut.mk "1" "Holiday" None "/uploads/video_20240102030405000678.mp4"
              (Some "video/mp4") (Some 3%Z) (Some "2024-01-02T03:04:05.000678")).
  assert (E : @post_videos lib (Some clip) (Some "Holiday") None w =
              (Response 200 v, snd out)) by (vm_compute; reflexivity).
  destruct (@upload_name_url_size lib clip (Some "Holiday") None w v (snd out) E)
    as (Hurl & Hsize & (path & _ & Hpath & Hfile) & _).
  exists v. split; [vm_compute; reflexivity|].
  split; [exact Hurl|]. split; [exact Hsize|].
  rewrite Hpath in Hfile. exact Hfile.
Defined.

(** The store after one upload, then a listing with limit 1. *)
Lemma list_videos_public_shape_witness :
  let w := snd (@post_videos lib (Some clip) (Some "Holiday") None
                  (world ∅ true no_fault)) in
  exists vs,
    @get_videos lib (Some 1%Z) w =
      (Response 200 vs, logged (EvFind "video" ∅ 1) w) /\
    length vs = 1.
Proof.
  intros w.
  set (q := Database.get_documents "video" ∅ (default 50%Z (Some 1%Z)) w).
  set (docs := match fst q with Ok ds => ds | Raise _ => [] end).
  assert (E : q = (Ok docs, logged (EvFind "video" ∅ 1) w))
    by (vm_compute; reflexivity).
  destruct (@list_videos_public_shape lib (Some 1%Z) w docs _ E)
    as (_ & _ & _ & Hshape & Htotal).
  destruct Htotal as [vs Hvs]; [vm_compute; repeat constructor|].
  exists vs. split; [exact Hvs|].
  destruct (Hshape _ _ _ Hvs) as (_ & _ & Hall).
  apply Forall2_length in Hall. rewrite <- Hall. vm_compute. reflexivity.
Defined.

(** Two environments that differ in the value of the connection string
    get the same report. *)
Lemma diagnostics_report_witness :
  let w := world (<["DATABASE_URL" := "mongodb://one"]> ∅) true no_fault in
  let env : gmap string string := <["DATABASE_URL" := "mongodb://two"]> ∅ in
  exists r,
    fst (get_test w) = Response 200 r /\
    fst (get_test (with_environ env w)) = Response 200 r /\
    Diagnostics.database_url r = Some "✅ Set" /\
    Diagnostics.database_name r = Some "❌ Not Set".
Proof.
  intros w env.
  destruct (diagnostics_report w env)
    as (r & w' & Hr & Henv & _ & _ & _ & _ & Hurl & Hname & _).
  - vm_compute. reflexivity.
  - vm_compute. reflexivity.
  - exists r. rewrite Hr. split; [reflexivity|]. split; [exact Henv|].
    split; [exact Hurl|exact Hname].
Defined.

(** An upload followed by a listing. *)
Lemma created_at_not_persisted_witness :
  let w := world ∅ true no_fault in
  let rqs := [PostVideos (Some clip) (Some "Holiday") None; GetVideos None] in
  exists r vs,
    fst (@run lib rqs w) = [r; Listed (Response 200 vs)] /\
    length vs = 1 /\
    Forall (fun v => VideoOut.created_at v = None) vs.
Proof.
  intros w rqs.
  destruct (@created_at_not_persisted lib rqs w (fst (@run lib rqs w))
              (snd (@run lib rqs w)))
    as (_ & _ & Hlisted & _).
  - vm_compute. reflexivity.
  - apply surjective_pairing.
  - assert (E : exists r vs,
               fst (@run lib rqs w) = [r; Listed (Response 200 vs)] /\
               length vs = 1)
      by (vm_compute; eexists _, _; split; reflexivity).
    destruct E as (r & vs & E & Hlen).
    exists r, vs. split; [exact E|]. split; [exact Hlen|].
    apply (Hlisted 200). rewrite E. right. left. reflexivity.
Defined.

End examples.

(** * Further properties of the handlers *)

(** ** Contact: answers, effects, addressing *)

Section contact_more.
Context `{Pydantic}.
Import Main App.

(** What the first block of [send_contact] does to the world: at most one
    insert into ["contactmessage"], nothing else. *)
Lemma save_message_world p w r w1 :
  save_message p w = (r, w1) ->
  fs_files w1 = fs_files w /\
  faults w1 = faults w /\
  (trace w1 = trace w \/
   exists doc, trace w1 = (trace w ++ [EvInsert "contactmessage" doc])%list).
Proof.
  rewrite save_message_eq.
  destruct (ContactMessage.new _ _ _) as [doc|]; [|intros [= _ <-]; auto].
  rewrite create_document_eq.
  destruct (db w); [|intros [= _ <-]; auto].
  destruct (faults w (length (trace w))); intros [= _ <-];
    (split; [reflexivity|split; [reflexivity|right; now exists (ContactMessage.model_dump doc)]]).
Qed.

Lemma payload_fields n e m p :
  ContactPayload.new n e m = Ok p ->
  ContactPayload.name p = n /\ ContactPayload.message p = m /\
  validate_email e = Some (ContactPayload.email p).
Proof.
  unfold ContactPayload.new.
  destruct (validate_email e); [|discriminate]. now intros [= <-].
Qed.

(** Every answer of the contact route has one of five shapes. *)
Theorem contact_answers n e m w :
  let r := fst (post_contact n e m w) in
  r = Error 422 "Unprocessable Entity" \/
  (exists sid, r = Response 200 (Contact.mk "sent" None sid)) \/
  (exists msg sid, r = Response 202 (Contact.mk "saved_only" (Some msg) sid)) \/
  (exists i, i <> "" /\ r = Response 200 (Contact.mk "saved_only" None (Some i))) \/
  r = Error 500 "Email not configured and database unavailable.".
Proof.
  intros r. subst r. unfold post_contact.
  destruct n as [n|]; [|now left]. destruct e as [e|]; [|now left].
  destruct m as [m|]; [|now left].
  destruct (ContactPayload.new n e m) as [p|err] eqn:Hp; [|now left].
  assert (Hpost : forall x, post_contact (Some n) (Some e) (Some m) w = x ->
                            serve_reply (send_contact p) w = x)
    by (unfold post_contact; now rewrite Hp).
  destruct (save_message_total p w) as (sid & w1 & Hs).
  destruct (smtp_configured w) eqn:Hc.
  - destruct (post_contact_configured n e m p w sid w1 Hp Hc Hs)
      as (user & password & to & _ & _ & _ & Hr).
    rewrite (Hpost _ Hr). simpl.
    destruct (faults w1 (length (trace w1))) as [msg|]; right; eauto.
  - rewrite (Hpost _ (post_contact_unconfigured n e m p w sid w1 Hp Hc Hs)). simpl.
    destruct sid as [i|].
    + rewrite (save_message_truthy p w i w1 Hs). do 3 right. left.
      exists i. split; [|reflexivity].
      intros ->. now pose proof (save_message_truthy p w "" w1 Hs).
    + simpl. now do 4 right.
Qed.

(** A contact request performs at most one store insert followed by at
    most one send, and never touches the file system or the environment. *)
Theorem contact_effects n e m w :
  let w' := snd (post_contact n e m w) in
  fs_files w' = fs_files w /\
  os_environ w' = os_environ w /\
  exists ins sends,
    trace w' = (trace w ++ ins ++ sends)%list /\
    (ins = [] \/ exists doc, ins = [EvInsert "contactmessage" doc]) /\
    (sends = [] \/ exists user password msg, sends = [EvSendmail user password msg]).
Proof.
  intros w'. subst w'. unfold post_contact.
  assert (Hnone : fs_files w = fs_files w /\ os_environ w = os_environ w /\
            exists ins sends : list event,
              trace w = (trace w ++ ins ++ sends)%list /\
              (ins = [] \/ exists doc, ins = [EvInsert "contactmessage" doc]) /\
              (sends = [] \/ exists user password msg,
                              sends = [EvSendmail user password msg])).
  { split; [reflexivity|]. split; [reflexivity|].
    exists [], []. rewrite app_nil_r. auto. }
  destruct n as [n|]; [|exact Hnone]. destruct e as [e|]; [|exact Hnone].
  destruct m as [m|]; [|exact Hnone].
  destruct (ContactPayload.new n e m) as [p|err] eqn:Hp; [|exact Hnone].
  clear Hnone. rewrite serve_reply_world.
  destruct (save_message_total p w) as (sid & w1 & Hs).
  destruct (save_message_world p w _ w1 Hs) as (Hfs & _ & Htr).
  pose proof (save_message_environ p w _ w1 Hs) as Henv.
  assert (Hins : exists ins, trace w1 = (trace w ++ ins)%list /\
                   (ins = [] \/ exists doc, ins = [EvInsert "contactmessage" doc])).
  { destruct Htr as [->|[doc ->]].
    - exists []. rewrite app_nil_r. auto.
    - exists [EvInsert "contactmessage" doc]. eauto. }
  destruct Hins as (ins & Hins & Hshape).
  destruct (smtp_configured w) eqn:Hc.
  - destruct (send_contact_configured p w sid w1 Hc Hs)
      as (user & password & to & _ & _ & _ & ->).
    assert (Hw : forall a b : Contact.reply,
              snd (match faults w1 (length (trace w1)) with
                   | None => (Ok a, logged (EvSendmail user password (compose user to p)) w1)
                   | Some msg => (Ok b, logged (EvSendmail user password (compose user to p)) w1)
                   end) = logged (EvSendmail user password (compose user to p)) w1)
      by (intros; destruct (faults w1 (length (trace w1))); reflexivity).
    cbv zeta.
    destruct (faults w1 (length (trace w1))); simpl;
      (split; [exact Hfs|split; [exact Henv|]]);
      exists ins, [EvSendmail user password (compose user to p)];
      (split; [rewrite Hins; now rewrite <- app_assoc|split; [exact Hshape|right; eauto]]).
  - rewrite (send_contact_unconfigured p w sid w1 Hc Hs).
    unfold store_only. destruct (Py.truthy sid); simpl;
      (split; [exact Hfs|split; [exact Henv|]]);
      exists ins, []; rewrite app_nil_r; auto.
Qed.

End contact_more.

Section contact_records.
Context `{Pydantic}.
Import Main App.

(** With SMTP configured the one message sent goes out from [GMAIL_USER]
    with the configured credential, to [CONTACT_TO_EMAIL] when that is set
    and not empty and back to [GMAIL_USER] otherwise, under a subject that
    carries the sender's name. *)
Theorem contact_mail_addressing n e m p w :
  ContactPayload.new n e m = Ok p ->
  smtp_configured w = true ->
  exists user password,
    os_environ w !! "GMAIL_USER" = Some user /\
    os_environ w !! "GMAIL_APP_PASSWORD" = Some password /\
    last (trace (snd (post_contact (Some n) (Some e) (Some m) w))) =
      Some (EvSendmail user password
              {| mail_from := user;
                 mail_to :=
                   match os_environ w !! "CONTACT_TO_EMAIL" with
                   | Some t => if Py.truthy_str t then t else user
                   | None => user
                   end;
                 mail_subject := "New Contact from " ++ n;
                 mail_body :=
                   "Name: " ++ n ++
                   String "010" ("Email: " ++ ContactPayload.email p ++
                   String "010" (String "010" ("Message:" ++ String "010" m))) |}).
Proof.
  intros Hp Hc.
  destruct (save_message_total p w) as (sid & w1 & Hs).
  destruct (post_contact_configured n e m p w sid w1 Hp Hc Hs)
    as (user & password & to & Hu & Hpw & Hto & ->).
  exists user, password. split; [exact Hu|]. split; [exact Hpw|].
  cbn [snd]. unfold logged. cbn [trace with_trace]. rewrite last_snoc.
  destruct (payload_fields n e m p Hp) as (Hn & Hm & _).
  unfold compose. rewrite Hn, Hm.
  assert (Hrcpt : to = match os_environ w !! "CONTACT_TO_EMAIL" with
                       | Some t => if Py.truthy_str t then t else user
                       | None => user
                       end).
  { unfold Py.or_else, Py.truthy in Hto.
    destruct (os_environ w !! "CONTACT_TO_EMAIL") as [t|].
    - destruct (Py.truthy_str t); congruence.
    - congruence. }
  now rewrite <- Hrcpt.
Qed.

Lemma stored_contact_fields doc (o : value) :
  let rec := <["_id" := o]> (ContactMessage.model_dump doc) in
  rec !! "_id" = Some o /\
  rec !! "name" = Some (VStr (ContactMessage.name doc)) /\
  rec !! "email" = Some (VStr (ContactMessage.email doc)) /\
  rec !! "message" = Some (VStr (ContactMessage.message doc)).
Proof.
  intros rec. subst rec. unfold ContactMessage.model_dump.
  split; [apply lookup_insert_eq|].
  split; [rewrite lookup_insert_ne by discriminate; apply lookup_insert_eq|].
  split.
  - do 2 (rewrite lookup_insert_ne by discriminate). apply lookup_insert_eq.
  - do 3 (rewrite lookup_insert_ne by discriminate). apply lookup_insert_eq.
Qed.

Lemma contact_message_fields n e m doc :
  ContactMessage.new n e m = Ok doc ->
  ContactMessage.name doc = n /\ ContactMessage.message doc = m /\
  validate_email e = Some (ContactMessage.email doc) /\
  1 <= String.length m <= 5000.
Proof.
  unfold ContactMessage.new.
  destruct (validate_email e); [|discriminate].
  destruct (1 <=? String.length m)%nat eqn:H1; [|discriminate].
  destruct (String.length m <=? 5000)%nat eqn:H2; [|discriminate].
  simpl. intros [= <-]. simpl.
  apply Nat.leb_le in H1, H2. auto.
Qed.

(** A [saved_id] that is not null, under any status, is the identifier of
    the record just stored: the last record of ["contactmessage"] carries
    it together with the name and the message of the request, and that
    message has between 1 and 5000 characters. *)
Theorem contact_saved_id_refers n e m w code body w' i :
  post_contact (Some n) (Some e) (Some m) w = (Response code body, w') ->
  Contact.saved_id body = Some i ->
  exists rec k,
    last (Database.collection "contactmessage" w') = Some rec /\
    rec !! "_id" = Some (VOid k) /\ str_oid k = i /\
    rec !! "name" = Some (VStr n) /\
    rec !! "message" = Some (VStr m) /\
    1 <= String.length m <= 5000.
Proof.
  intros Hpost Hid.
  destruct (ContactPayload.new n e m) as [p|err] eqn:Hp;
    [|unfold post_contact in Hpost; rewrite Hp in Hpost; discriminate].
  destruct (save_message_total p w) as (sid & w1 & Hs).
  destruct (payload_fields n e m p Hp) as (Hn & Hm & _).
  assert (Hsid : sid = Some i /\
                 Database.collection "contactmessage" w' =
                 Database.collection "contactmessage" w1).
  { destruct (smtp_configured w) eqn:Hc.
    - destruct (post_contact_configured n e m p w sid w1 Hp Hc Hs)
        as (user & password & to & _ & _ & _ & Hr).
      rewrite Hr in Hpost.
      destruct (faults w1 (length (trace w1)));
        injection Hpost as <- <- <-; simpl in Hid; auto.
    - rewrite (post_contact_unconfigured n e m p w sid w1 Hp Hc Hs) in Hpost.
      destruct (Py.truthy sid); [|discriminate].
      injection Hpost as <- <- <-. simpl in Hid. auto. }
  destruct Hsid as [-> Hcoll].
  destruct (save_message_some p w i w1 Hs) as (doc & Hdoc & -> & ->).
  rewrite Hn, Hm in Hdoc.
  destruct (contact_message_fields _ _ _ _ Hdoc) as (Hdn & Hdm & _ & Hlen).
  rewrite Hcoll, collection_inserted, last_snoc.
  destruct (stored_contact_fields doc (VOid (db_next_oid w)))
    as (Hi & Hname & _ & Hmsg).
  eexists _, (db_next_oid w). split; [reflexivity|]. split; [exact Hi|].
  split; [reflexivity|]. rewrite <- Hdn at 1. rewrite <- Hdm at 1. auto.
Qed.

End contact_records.

(** ** Uploads: order of effects, failures, files left alone *)

Section upload_more.
Context `{Pydantic}.
Import Main App.



Lemma upload_video_files f t d w path :
  path <> upload_path f w ->
  fs_files (snd (upload_video f t d w)) !! path = fs_files w !! path.
Proof.
  intros Hne. rewrite upload_video_eq.
  destruct (faults w (length (trace w))); [reflexivity|].
  assert (Hrm : forall w2,
            fs_files w2 = <[upload_path f w := UploadFile.read f]> (fs_files w) ->
            fs_files (snd (os_remove (upload_path f w) w2)) !! path =
              fs_files w !! path).
  { intros w2 Hw2. rewrite os_remove_eq. cbv zeta.
    destruct (faults w2 _); [simpl; rewrite Hw2; now rewrite lookup_insert_ne|].
    destruct (fs_files w2 !! upload_path f w); simpl.
    - rewrite lookup_delete_ne by congruence. rewrite Hw2.
      now rewrite lookup_insert_ne.
    - rewrite Hw2. now rewrite lookup_insert_ne. }
  rewrite create_document_eq.
  destruct (db (written f w)).
  - destruct (faults (written f w) _); cbn [snd].
    + now apply Hrm.
    + simpl. now rewrite lookup_insert_ne.
  - cbn [snd]. now apply Hrm.
Qed.

Lemma post_contact_files n e m w :
  fs_files (snd (post_contact n e m w)) = fs_files w.
Proof.
  unfold post_contact. destruct n, e, m; try reflexivity.
  destruct (ContactPayload.new _ _ _) as [p|]; [|reflexivity].
  rewrite serve_reply_world.
  destruct (save_message_total p w) as (sid & w1 & Hs).
  destruct (save_message_world p w _ w1 Hs) as (<- & _ & _).
  destruct (smtp_configured w) eqn:Hc.
  - destruct (send_contact_configured p w sid w1 Hc Hs)
      as (user & password & to & _ & _ & _ & ->).
    destruct (faults w1 (length (trace w1))); reflexivity.
  - rewrite (send_contact_unconfigured p w sid w1 Hc Hs).
    unfold store_only. destruct (Py.truthy sid); reflexivity.
Qed.

(** Files are touched by uploads only, and an upload touches only the
    path it generated: if a request changed what is stored at [path], the
    request was an upload and [path] is its generated path. *)
Theorem files_frame rq w path :
  fs_files (snd (handle rq w)) !! path <> fs_files w !! path ->
  exists f t d, rq = PostVideos (Some f) t d /\ path = upload_path f w.
Proof.
  intros Hch. destruct rq as [| |file t d|l|n e m]; simpl in Hch.
  - now contradict Hch.
  - exfalso. apply Hch. clear Hch.
    destruct (get_test w) as [r w0] eqn:E. simpl.
    change w0 with (snd (r, w0)). rewrite <- E.
    unfold get_test. rewrite serve_world, test_database_eq. cbv zeta.
    destruct (db w); [|reflexivity].
    destruct (faults w (length (trace w))); reflexivity.
  - destruct (post_videos file t d w) as [r w0] eqn:E. simpl in Hch.
    assert (Hw0 : w0 = snd (post_videos file t d w)) by now rewrite E.
    unfold post_videos in Hw0.
    destruct file as [f|]; [|destruct (form_value t); subst w0; now contradict Hch].
    destruct (form_value t) as [t'|]; [|subst w0; now contradict Hch].
    rewrite serve_world in Hw0. subst w0.
    exists f, t, d. split; [reflexivity|].
    destruct (decide (path = upload_path f w)) as [|Hne]; [assumption|].
    exfalso. apply Hch. now apply upload_video_files.
  - exfalso. apply Hch. clear Hch.
    destruct (get_videos l w) as [r w0] eqn:E. simpl.
    change w0 with (snd (r, w0)). rewrite <- E.
    unfold get_videos. rewrite serve_world.
    unfold list_videos, bind, try_except, lift, raise.
    rewrite get_documents_eq.
    destruct (db w); [|reflexivity].
    destruct (faults w (length (trace w))); reflexivity.
  - exfalso. apply Hch. clear Hch.
    destruct (post_contact n e m w) as [r w0] eqn:E. simpl.
    change w0 with (snd (r, w0)). rewrite <- E.
    now rewrite post_contact_files.
Qed.

End upload_more.

(** ** The generated name stays inside the upload directory *)

Section upload_names.
Import Main.

Lemma rfind_app_none c a b :
  Py.rfind c a = None -> Py.rfind c b = None -> Py.rfind c (a ++ b) = None.
Proof.
  intros Ha Hb. induction a as [|x a IH]; simpl in *; [exact Hb|].
  destruct (Py.rfind c a); [discriminate|].
  destruct (Ascii.eqb x c); [discriminate|]. now rewrite IH.
Qed.

Lemma rfind_none_drop c s : forall j,
  Py.rfind c s = None -> Py.rfind c (Py.str_drop j s) = None.
Proof.
  induction s as [|x s IH]; intros j Hs; [now destruct j|].
  destruct j as [|j]; [exact Hs|]. simpl in *.
  destruct (Py.rfind c s); [discriminate|]. now apply IH.
Qed.

Lemma rfind_drop_after c s : forall i j,
  Py.rfind c s = Some i -> i < j -> Py.rfind c (Py.str_drop j s) = None.
Proof.
  induction s as [|x s IH]; intros i j Hs Hij; [discriminate|].
  destruct j as [|j]; [lia|]. simpl in *.
  destruct (Py.rfind c s) as [i'|] eqn:Hr.
  - injection Hs as <-. apply (IH i'); [reflexivity|lia].
  - now apply rfind_none_drop.
Qed.

(** The extension [os.path.splitext] returns holds no path separator. *)
Lemma splitext_ext_no_separator p : Py.rfind "/" (snd (Py.splitext p)) = None.
Proof.
  unfold Py.splitext.
  destruct (Py.rfind "." p) as [dotIndex|]; [|reflexivity].
  destruct (Py.rfind "/" p) as [i|] eqn:Hsep.
  - destruct (S i <=? dotIndex)%nat eqn:Hle; [|reflexivity].
    destruct (Py.has_non_dot p (S i) dotIndex); [|reflexivity]. simpl.
    apply Nat.leb_le in Hle. apply (rfind_drop_after _ _ i); [assumption|lia].
  - destruct ((0 <=? dotIndex)%nat && Py.has_non_dot p 0 dotIndex); [|reflexivity].
    simpl. now apply rfind_none_drop.
Qed.

Lemma digit_not_separator n : Ascii.eqb (Py.digit n) "/" = false.
Proof.
  unfold Py.digit.
  assert (Hlt : n mod 10 < 10) by (apply Nat.mod_upper_bound; lia).
  destruct (n mod 10) as [|k]; [reflexivity|].
  do 9 (destruct k as [|k]; [reflexivity|]). lia.
Qed.

Lemma str_nat_go_no_separator fuel : forall n acc,
  Py.rfind "/" acc = None -> Py.rfind "/" (Py.str_nat_go fuel n acc) = None.
Proof.
  induction fuel as [|fuel IH]; intros n acc Hacc; cbn [Py.str_nat_go];
    [exact Hacc|].
  assert (Hstep : Py.rfind "/" (String (Py.digit n) acc) = None)
    by (cbn [Py.rfind]; rewrite Hacc; now rewrite digit_not_separator).
  cbv zeta. destruct (n <? 10)%nat; [exact Hstep|]. now apply IH.
Qed.

Lemma zfill_no_separator width n : Py.rfind "/" (Py.zfill width n) = None.
Proof.
  unfold Py.zfill. apply rfind_app_none.
  - induction (width - String.length (Py.str_nat n)) as [|k IH]; [reflexivity|].
    simpl. now rewrite IH.
  - unfold Py.str_nat. apply str_nat_go_no_separator. reflexivity.
Qed.

(** Whatever file name the client declares, the generated name holds no
    path separator: the client cannot steer the write into another
    directory through the extension. *)
Theorem upload_name_no_separator f w : Py.rfind "/" (upload_name f w) = None.
Proof.
  unfold upload_name, Py.strftime_compact.
  apply (rfind_app_none _ "video_"); [reflexivity|].
  apply rfind_app_none; [|apply splitext_ext_no_separator].
  do 6 (apply rfind_app_none; [apply zfill_no_separator|]).
  apply zfill_no_separator.
Qed.

End upload_names.

(** ** Listings: failures and the round trip with uploads *)

Section listing_more.
Context `{Pydantic}.
Import Main App.

(** A failing store query is answered 500 with the text of the failure,
    and leaves the store as it was. *)
Theorem listing_store_failure limit w e w1 :
  Database.get_documents "video" ∅ (default 50%Z limit) w = (Raise e, w1) ->
  get_videos limit w = (Error 500 (Py.str_exn e), w1) /\
  db_collections w1 = db_collections w.
Proof.
  intros Hq. split.
  - unfold get_videos, serve, list_videos, bind, try_except, raise. now rewrite Hq.
  - rewrite get_documents_eq in Hq.
    destruct (db w); [|now injection Hq as _ <-].
    destruct (faults w (length (trace w))); [now injection Hq as _ <-|discriminate].
Qed.

Lemma conforms_false_raises d :
  conforms d = false -> video_out_of d = Raise (ValidationError "VideoOut").
Proof.
  unfold conforms, video_out_of, VideoOut.new. intros Hc.
  destruct (dict_get_default d "title" (VStr "Untitled")) as [| |z|k|t];
    try reflexivity.
  destruct (VideoOut.as_opt_str (dict_get d "description")) as [de|] eqn:Hd;
    [|reflexivity].
  destruct (dict_get_default d "url" (VStr "")) as [| |z|k|t]; try reflexivity.
  destruct (VideoOut.as_opt_str (dict_get d "mime_type")) as [m|] eqn:Hm;
    [|destruct (VideoOut.as_str _); reflexivity].
  destruct (VideoOut.as_opt_int (dict_get d "size_bytes")) as [sz|] eqn:Hs;
    [|destruct (VideoOut.as_str _); reflexivity].
  exfalso. revert Hc.
  assert (H1 : is_opt_str (dict_get d "description") = true)
    by (destruct (dict_get d "description"); simpl in *; congruence).
  assert (H2 : is_opt_str (dict_get d "mime_type") = true)
    by (destruct (dict_get d "mime_type"); simpl in *; congruence).
  assert (H3 : is_opt_int (dict_get d "size_bytes") = true).
  { destruct (dict_get d "size_bytes"); simpl in *; try congruence.
    destruct (int_of_str s1); congruence. }
  rewrite H1, H2, H3. discriminate.
Qed.

Lemma for_each_doc_raises docs : forall out d,
  In d docs -> conforms d = false ->
  for_each_doc docs out = Raise (ValidationError "VideoOut").
Proof.
  induction docs as [|d0 docs IH]; intros out d Hin Hbad; [destruct Hin|].
  simpl. destruct (conforms d0) eqn:Hc0.
  - destruct (video_out_of_total d0 Hc0) as [v ->].
    destruct Hin as [->|Hin]; [congruence|]. now apply (IH _ d).
  - now rewrite (conforms_false_raises d0 Hc0).
Qed.

(** One record whose fields do not have the declared types among those
    the store returned is enough to fail the whole listing: the answer is a
    plain 500 and none of the other records is shown. *)
Theorem listing_rejects_bad_record limit w docs w1 d :
  Database.get_documents "video" ∅ (default 50%Z limit) w = (Ok docs, w1) ->
  In d docs ->
  conforms d = false ->
  get_videos limit w = (Error 500 "Internal Server Error", w1).
Proof.
  intros Hq Hin Hbad.
  unfold get_videos, serve, list_videos, bind, try_except. rewrite Hq.
  unfold lift. now rewrite (for_each_doc_raises docs [] d Hin Hbad).
Qed.



End listing_more.

(** ** Diagnostics: what the report shows *)

Section diagnostics_more.
Import Main App.

Lemma str_take_length n : forall s, String.length (Py.str_take n s) <= n.
Proof.
  induction n as [|n IH]; intros s; [destruct s; simpl; lia|].
  destruct s as [|c s]; simpl; [lia|]. specialize (IH s). lia.
Qed.

Lemma str_take_prefix n : forall s, exists rest, s = Py.str_take n s ++ rest.
Proof.
  induction n as [|n IH]; intros s; [exists s; now destruct s|].
  destruct s as [|c s]; [now exists ""|].
  destruct (IH s) as [rest Hrest]. exists rest.
  change (String c s = String c (Py.str_take n s ++ rest)). now f_equal.
Qed.

Lemma str_take_all n : forall s, String.length s <= n -> Py.str_take n s = s.
Proof.
  induction n as [|n IH]; intros s Hlen; destruct s as [|c s]; simpl in *;
    try reflexivity; try lia.
  rewrite IH by lia. reflexivity.
Qed.

(** When the store handle exists but cannot list its collections, the
    report names no collection and shows the first 50 characters of the
    failure text at most (all of it when it is that short). *)
Theorem diagnostics_error_text w msg :
  db w = true ->
  faults w (length (trace w)) = Some msg ->
  exists r w' shown rest,
    get_test w = (Response 200 r, w') /\
    Diagnostics.database r = "⚠️  Connected but Error: " ++ shown /\
    msg = shown ++ rest /\
    String.length shown <= 50 /\
    (String.length msg <= 50 -> shown = msg) /\
    Diagnostics.collections r = [].
Proof.
  intros Hdb Hf.
  destruct (str_take_prefix 50 msg) as [rest Hrest].
  unfold get_test, serve. rewrite test_database_eq, Hdb, Hf. cbv zeta.
  eexists _, _, (Py.str_take 50 msg), rest.
  split; [reflexivity|]. split; [reflexivity|]. split; [exact Hrest|].
  split; [apply str_take_length|]. split; [apply str_take_all|reflexivity].
Qed.

(** Whatever the state of the store, the report says the backend is
    running and keeps [connection_status] at ["Not Connected"], also when
    [database] reads connected and working. *)
Theorem diagnostics_fixed_fields w :
  exists r w',
    get_test w = (Response 200 r, w') /\
    Diagnostics.backend r = "✅ Running" /\
    Diagnostics.connection_status r = "Not Connected" /\
    (db w = true -> faults w (length (trace w)) = None ->
     Diagnostics.database r = "✅ Connected & Working").
Proof.
  unfold get_test, serve. rewrite test_database_eq. cbv zeta.
  destruct (db w).
  - destruct (faults w (length (trace w)));
      eexists _, _; (split; [reflexivity|]); repeat split; discriminate.
  - eexists _, _. split; [reflexivity|]. repeat split. discriminate.
Qed.

End diagnostics_more.

(** ** The further properties on concrete requests *)

Section more_examples.
Import Main App Sample.

Lemma contact_mail_addressing_witness :
  let w := world (<["CONTACT_TO_EMAIL" := "owner@example.org"]> smtp_env) true
             no_fault in
  exists body,
    last (trace (snd (@post_contact lib (Some "Ann") (Some "ann@example.org")
                        (Some "hello") w))) =
      Some (EvSendmail "me@example.org" "secret"
              {| mail_from := "me@example.org"; mail_to := "owner@example.org";
                 mail_subject := "New Contact from Ann"; mail_body := body |}).
Proof.
  intros w.
  destruct (@contact_mail_addressing lib "Ann" "ann@example.org" "hello" ann w)
    as (user & password & Hu & Hp & Hlast).
  - reflexivity.
  - vm_compute. reflexivity.
  - assert (Eu : user = "me@example.org")
      by (vm_compute in Hu; now injection Hu as <-).
    assert (Ep : password = "secret")
      by (vm_compute in Hp; now injection Hp as <-).
    subst user password. eexists. rewrite Hlast. reflexivity.
Defined.

Lemma contact_saved_id_refers_witness :
  let w := world ∅ true no_fault in
  let out := @post_contact lib (Some "Ann") (Some "ann@example.org")
               (Some "hello") w in
  exists rec k,
    last (Database.collection "contactmessage" (snd out)) = Some rec /\
    rec !! "_id" = Some (VOid k) /\ str_oid k = "1" /\
    rec !! "name" = Some (VStr "Ann") /\
    rec !! "message" = Some (VStr "hello") /\
    1 <= String.length "hello" <= 5000.
Proof.
  intros w out.
  apply (@contact_saved_id_refers lib "Ann" "ann@example.org" "hello" w 200
           (Contact.mk "saved_only" None (Some "1")) (snd out) "1").
  - vm_compute. reflexivity.
  - reflexivity.
Defined.


Lemma files_frame_witness :
  let w := world ∅ true no_fault in
  exists f t d,
    PostVideos (Some clip) (Some "Holiday") None = PostVideos (Some f) t d /\
    video_path = upload_path f w.
Proof.
  intros w.
  apply (@files_frame lib (PostVideos (Some clip) (Some "Holiday") None) w video_path).
  vm_compute. discriminate.
Defined.

Lemma listing_store_failure_witness :
  let w := world ∅ true (fail_at 0 "timed out") in
  @get_videos lib None w =
    (Error 500 "timed out", logged (EvFind "video" ∅ 50) w) /\
  db_collections (logged (EvFind "video" ∅ 50) w) = db_collections w.
Proof.
  intros w.
  apply (@listing_store_failure lib None w (Py.Exception "timed out")).
  vm_compute. reflexivity.
Defined.

Lemma listing_rejects_bad_record_witness :
  @get_videos lib None broken_store =
    (Error 500 "Internal Server Error", logged (EvFind "video" ∅ 50) broken_store).
Proof.
  apply (@listing_rejects_bad_record lib None broken_store [bad_record] _ bad_record).
  - vm_compute. reflexivity.
  - left. reflexivity.
  - vm_compute. reflexivity.
Defined.


Lemma diagnostics_error_text_witness :
  let w := world ∅ true (fail_at 0 "no route to host") in
  exists r w',
    get_test w = (Response 200 r, w') /\
    Diagnostics.database r = "⚠️  Connected but Error: no route to host" /\
    Diagnostics.collections r = [].
Proof.
  intros w.
  destruct (diagnostics_error_text w "no route to host")
    as (r & w' & shown & rest & Hr & Hdb & _ & _ & Hall & Hcoll).
  - reflexivity.
  - reflexivity.
  - exists r, w'. split; [exact Hr|]. split; [|exact Hcoll].
    rewrite Hdb, Hall; [reflexivity|simpl; lia].
Defined.

End more_examples.
